(** * pyavd: Android SDK tool discovery, listing parsers and AVD lifecycle

    A shallow embedding of [android_sdk_utils/_android_sdk_utils.py] and
    [pyavd/pyavd.py].

    Text is modelled as [string], one character per code point below 256.
    Everything the Python code obtains from the operating system, from
    [pathlib], [subprocess], [time] and from the adb client is an oracle of
    a [Host] record; every interaction is appended to an event trace. *)

From Stdlib Require Import String Ascii List ZArith Bool Lia QArith.
From Stdlib Require Import DecimalString.
Import ListNotations.
Open Scope string_scope.
Open Scope list_scope.
Open Scope Z_scope.

(** ** Python text primitives *)

Module PyStr.

Definition code (c : ascii) : N := N_of_ascii c.

(** [str.isspace] on one character; also the class [\s] of [re]. *)
Definition isspace (c : ascii) : bool :=
  let n := code c in
  ((9 <=? n) && (n <=? 13) || (28 <=? n) && (n <=? 32)
   || (n =? 133) || (n =? 160))%N.

(** The class [\d] of [re]. *)
Definition isdigit (c : ascii) : bool :=
  let n := code c in ((48 <=? n) && (n <=? 57))%N.

Definition is_newline (c : ascii) : bool := (code c =? 10)%N.

Definition digit_value (c : ascii) : Z := Z.of_N (code c) - 48.

Definition is_empty (s : string) : bool :=
  match s with EmptyString => true | String _ _ => false end.

Fixpoint lstrip_by (f : ascii -> bool) (s : string) : string :=
  match s with
  | EmptyString => EmptyString
  | String c r => if f c then lstrip_by f r else s
  end.

Fixpoint rstrip_by (f : ascii -> bool) (s : string) : string :=
  match s with
  | EmptyString => EmptyString
  | String c r =>
      let r' := rstrip_by f r in
      if f c && is_empty r' then EmptyString else String c r'
  end.

(** [s.strip()] *)
Definition strip (s : string) : string :=
  rstrip_by isspace (lstrip_by isspace s).

Definition upper_char (c : ascii) : ascii :=
  let n := code c in
  if ((97 <=? n) && (n <=? 122))%N then ascii_of_N (n - 32) else c.

(** [s.upper()]; exact on ASCII text. *)
Fixpoint upper (s : string) : string :=
  match s with
  | EmptyString => EmptyString
  | String c r => String (upper_char c) (upper r)
  end.

Definition lower_char (c : ascii) : ascii :=
  let n := code c in
  if ((65 <=? n) && (n <=? 90))%N then ascii_of_N (n + 32) else c.

(** [s.lower()]; exact on ASCII text. *)
Fixpoint lower (s : string) : string :=
  match s with
  | EmptyString => EmptyString
  | String c r => String (lower_char c) (lower r)
  end.

(** [s.startswith(p)] *)
Definition startswith (s p : string) : bool := String.prefix p s.

(** [s.removeprefix(p)] when [s.startswith(p)], otherwise nothing. *)
Fixpoint strip_prefix (p s : string) : option string :=
  match p with
  | EmptyString => Some s
  | String a p' =>
      match s with
      | EmptyString => None
      | String b s' => if Ascii.eqb a b then strip_prefix p' s' else None
      end
  end.

(** The longest prefix whose characters satisfy [f], and the rest. *)
Fixpoint span (f : ascii -> bool) (s : string) : string * string :=
  match s with
  | EmptyString => (EmptyString, EmptyString)
  | String c r =>
      if f c then let '(a, b) := span f r in (String c a, b)
      else (EmptyString, s)
  end.

(** [s.split(sep, 1)] when [sep in s]: the text before the first [sep] and
    the text after it. *)
Fixpoint split_once (sep : ascii) (s : string) : option (string * string) :=
  match s with
  | EmptyString => None
  | String c r =>
      if Ascii.eqb c sep then Some (EmptyString, r)
      else match split_once sep r with
           | Some (a, b) => Some (String c a, b)
           | None => None
           end
  end.

(** [s.split(sep)] *)
Fixpoint split (sep : ascii) (s : string) : list string :=
  match s with
  | EmptyString => [EmptyString]
  | String c r =>
      if Ascii.eqb c sep then EmptyString :: split sep r
      else match split sep r with
           | h :: t => String c h :: t
           | [] => [String c EmptyString]
           end
  end.

(** Digits of a decimal literal as [int] reads them: single underscores are
    allowed between digits.  Returns the value and the number of digits. *)
Fixpoint int_digits (acc : Z) (count : nat) (after_digit : bool) (s : string)
  : option (Z * nat) :=
  match s with
  | EmptyString => if after_digit then Some (acc, count) else None
  | String c r =>
      if isdigit c then int_digits (10 * acc + digit_value c) (S count) true r
      else if Ascii.eqb c "_" then
             if after_digit then int_digits acc count false r else None
           else None
  end.

(** The blanks [int] skips around a literal: the separators 28 to 31 are
    not among them. *)
Definition int_isspace (c : ascii) : bool :=
  let n := code c in
  ((9 <=? n) && (n <=? 13) || (n =? 32) || (n =? 133) || (n =? 160))%N.

(** [int(s)] in base ten.  [None] stands for [ValueError]; [limit] is
    [sys.get_int_max_str_digits()], where 0 switches the limit off. *)
Definition int (limit : nat) (s : string) : option Z :=
  let body := rstrip_by int_isspace (lstrip_by int_isspace s) in
  let '(negative, ds) :=
    match body with
    | String "-" r => (true, r)
    | String "+" r => (false, r)
    | _ => (false, body)
    end in
  match int_digits 0 0%nat false ds with
  | Some (v, n) =>
      if negb (Nat.eqb limit 0) && Nat.ltb limit n then None
      else Some (if negative then - v else v)
  | None => None
  end.

(** [str(z)] for an [int]. *)
Definition str_of_int (z : Z) : string :=
  NilZero.string_of_int (Z.to_int z).

End PyStr.

(** ** Exceptions and results *)

(** The exception classes the code raises or lets through; their messages
    are not modelled. *)
Inductive Exn : Type :=
| ValueError
| AttributeError
| RuntimeError
| AssertionError
| BootTimeoutError
| CalledProcessError (cmd : list string) (returncode : Z)
                     (stdout stderr : option string)
| TimeoutExpired
| OSError
| UnicodeDecodeError
| FileNotFoundError
| KeyError
| AdbError.

Inductive Result (A : Type) : Type :=
| Ok (a : A)
| Raise (e : Exn).
Arguments Ok {A} a.
Arguments Raise {A} e.

(** What a generator has produced when it stops: the records yielded so
    far, and the exception that ended it, if one did. *)
Definition Gen (T : Type) : Type := (list T * option Exn)%type.

Definition yielded {T} (g : Gen T) : list T := fst g.
Definition failure {T} (g : Gen T) : option Exn := snd g.

(** [list(gen)] *)
Definition list_of_gen {T} (g : Gen T) : Result (list T) :=
  match failure g with
  | Some e => Raise e
  | None => Ok (yielded g)
  end.

(** ** Target and Device *)

(** The double quote character. *)
Definition dquote : ascii := ascii_of_N 34.

(** [_ID_RE.match(line)], the pattern being [id: ] then [(\d+)] then [ or ]
    then a double quote, a non-empty run of characters other than the
    double quote as group 2, and a closing double quote: groups 1 and 2. *)
Definition id_re_match (line : string) : option (string * string) :=
  match PyStr.strip_prefix "id: " line with
  | None => None
  | Some r1 =>
      let '(digits, r2) := PyStr.span PyStr.isdigit r1 in
      if PyStr.is_empty digits then None
      else
        match PyStr.strip_prefix (" or " ++ String dquote EmptyString)%string r2 with
        | None => None
        | Some r3 =>
            let '(alias, r4) :=
              PyStr.span (fun c => negb (Ascii.eqb c dquote)) r3 in
            if PyStr.is_empty alias then None
            else match r4 with
                 | String c _ =>
                     if Ascii.eqb c dquote then Some (digits, alias)
                     else None
                 | EmptyString => None
                 end
        end
  end.

Record Target : Type := mkTarget {
  target_id : Z;
  target_id_alias : option string;
  target_name : option string;
  target_type : option string;
  api_level : option Z;
  revision : option Z
}.

(** [Target()] *)
Definition Target_default : Target :=
  mkTarget (-1) None None None None None.

Definition Target_is_empty (t : Target) : bool := target_id t =? -1.

Record Device : Type := mkDevice {
  device_id : Z;
  device_id_alias : option string;
  device_name : option string;
  oem : option string;
  tag : string
}.

(** [Device()] *)
Definition Device_default : Device := mkDevice (-1) None None None EmptyString.

Definition Device_is_empty (d : Device) : bool := device_id d =? -1.

Section Parsers.

(** [sys.get_int_max_str_digits()] *)
Variable max_str_digits : nat.

(** One iteration of the loop of [Target._parse]: the record yielded by
    this line, if any, and the new [cur]. *)
Definition Target_line (cur : option Target) (raw : string)
  : Result (list Target * option Target) :=
  let line := PyStr.strip raw in
  if PyStr.is_empty line then Ok ([], cur)
  else if PyStr.startswith line "----------" then
    Ok (match cur with
        | Some c => if negb (Target_is_empty c) then [c] else []
        | None => []
        end, Some Target_default)
  else
    let c := match cur with Some c => c | None => Target_default end in
    match id_re_match line with
    | Some (digits, alias) =>
        match PyStr.int max_str_digits digits with
        | Some n =>
            Ok ([], Some (mkTarget n (Some alias) (target_name c)
                            (target_type c) (api_level c) (revision c)))
        | None => Raise ValueError
        end
    | None =>
        match PyStr.split_once ":" line with
        | None => Ok ([], Some c)
        | Some (k0, v0) =>
            let k := PyStr.upper (PyStr.strip k0) in
            let v := PyStr.strip v0 in
            if String.eqb k "NAME" then
              Ok ([], Some (mkTarget (target_id c) (target_id_alias c)
                              (Some v) (target_type c) (api_level c)
                              (revision c)))
            else if String.eqb k "TYPE" then
              Ok ([], Some (mkTarget (target_id c) (target_id_alias c)
                              (target_name c) (Some v) (api_level c)
                              (revision c)))
            else if String.eqb k "API LEVEL" then
              match PyStr.int max_str_digits v with
              | Some n =>
                  Ok ([], Some (mkTarget (target_id c) (target_id_alias c)
                                  (target_name c) (target_type c) (Some n)
                                  (revision c)))
              | None => Raise ValueError
              end
            else if String.eqb k "REVISION" then
              match PyStr.int max_str_digits v with
              | Some n =>
                  Ok ([], Some (mkTarget (target_id c) (target_id_alias c)
                                  (target_name c) (target_type c)
                                  (api_level c) (Some n)))
              | None => Raise ValueError
              end
            else Ok ([], Some c)
        end
    end.

Fixpoint Target_loop (cur : option Target) (lines : list string)
  : Gen Target :=
  match lines with
  | [] =>
      (match cur with
       | Some c => if negb (Target_is_empty c) then [c] else []
       | None => []
       end, None)
  | raw :: rest =>
      match Target_line cur raw with
      | Raise e => ([], Some e)
      | Ok (out, cur') =>
          let '(ys, err) := Target_loop cur' rest in (out ++ ys, err)
      end
  end.

(** [Target._parse(lines)] *)
Definition Target_parse (lines : list string) : Gen Target :=
  Target_loop None lines.

(** One iteration of the loop of [Device._parse]. *)
Definition Device_line (cur : option Device) (raw : string)
  : Result (list Device * option Device) :=
  let line := PyStr.strip raw in
  if PyStr.is_empty line then Ok ([], cur)
  else if PyStr.startswith line "---------" then
    Ok (match cur with
        | Some c => if negb (Device_is_empty c) then [c] else []
        | None => []
        end, Some Device_default)
  else
    let c := match cur with Some c => c | None => Device_default end in
    match id_re_match line with
    | Some (digits, alias) =>
        match PyStr.int max_str_digits digits with
        | Some n =>
            Ok ([], Some (mkDevice n (Some alias) (device_name c) (oem c)
                            (tag c)))
        | None => Raise ValueError
        end
    | None =>
        match PyStr.split_once ":" line with
        | None => Ok ([], Some c)
        | Some (k0, v0) =>
            let k := PyStr.upper (PyStr.strip k0) in
            let v := PyStr.strip v0 in
            if String.eqb k "NAME" then
              Ok ([], Some (mkDevice (device_id c) (device_id_alias c)
                              (Some v) (oem c) (tag c)))
            else if String.eqb k "OEM" then
              Ok ([], Some (mkDevice (device_id c) (device_id_alias c)
                              (device_name c) (Some v) (tag c)))
            else if String.eqb k "TAG" then
              Ok ([], Some (mkDevice (device_id c) (device_id_alias c)
                              (device_name c) (oem c) v))
            else Ok ([], Some c)
        end
    end.

Fixpoint Device_loop (cur : option Device) (lines : list string)
  : Gen Device :=
  match lines with
  | [] =>
      (match cur with
       | Some c => if negb (Device_is_empty c) then [c] else []
       | None => []
       end, None)
  | raw :: rest =>
      match Device_line cur raw with
      | Raise e => ([], Some e)
      | Ok (out, cur') =>
          let '(ys, err) := Device_loop cur' rest in (out ++ ys, err)
      end
  end.

(** [Device._parse(lines)] *)
Definition Device_parse (lines : list string) : Gen Device :=
  Device_loop None lines.

End Parsers.

(** ** The host: processes, files, clock and the adb client *)

Inductive Level : Type := DEBUG | INFO | ERROR.

(** What the code does to the outside world, in the order it does it. *)
Inductive Event : Type :=
| EvIsFile (p : string)
| EvRun (cmd : list string) (timeout : option Z)
| EvLog (lvl : Level) (fmt : string)
| EvTime
| EvSleep (secs : Z)
| EvAdbList
| EvAdbShell (serial : string) (argv : list string).

(** Oldest event first. *)
Definition Trace : Type := list Event.

(** How a spawned process ends: it exits with a code and its captured
    output, it outlives the timeout, or it cannot be spawned at all. *)
Inductive RunOutcome : Type :=
| Exited (returncode : Z) (out err : string)
| TimedOut
| SpawnFailed.

(** [subprocess.CompletedProcess] *)
Record CompletedProcess : Type := mkCompletedProcess {
  args : list string;
  returncode : Z;
  stdout : string;
  stderr : string
}.

(** An entry of [AdbClient.list(extended=True)]. *)
Record DeviceInfo : Type := mkDeviceInfo {
  serial : string;
  tags : list (string * string)
}.

(** Each oracle answers from the events so far. *)
Record Host : Type := mkHost {
  sys_platform : string;
  (** [_TOOLS] *)
  avdmanager : string;
  emulator : string;
  adb : string;
  int_max_str_digits : nat;
  (** [Path(p).is_file()] *)
  path_is_file : Trace -> string -> bool;
  (** [Path(p).suffix] *)
  path_suffix : string -> string;
  (** the process behind [subprocess.run] *)
  spawn : Trace -> list string -> option Z -> RunOutcome;
  (** [b.decode().splitlines()]; [None] is [UnicodeDecodeError] *)
  decode_splitlines : string -> option (list string);
  (** [time.time()] *)
  time_time : Trace -> Q;
  (** [client.list(extended=True)] *)
  adb_list : Trace -> Result (list DeviceInfo);
  (** [client.device(serial).shell(argv)] *)
  adb_shell : Trace -> string -> list string -> Result string
}.

(** Computations that extend a trace of events [E] and may raise. *)
Definition Eff (E A : Type) : Type := list E -> Result A * list E.

Definition ret {E A} (a : A) : Eff E A := fun tr => (Ok a, tr).

Definition raise {E A} (e : Exn) : Eff E A := fun tr => (Raise e, tr).

Definition bind {E A B} (c : Eff E A) (k : A -> Eff E B) : Eff E B :=
  fun tr =>
    match c tr with
    | (Ok a, tr') => k a tr'
    | (Raise e, tr') => (Raise e, tr')
    end.

Notation "x <- c ;; k" := (bind c (fun x => k))
  (at level 61, c at next level, right associativity).
Notation "c ;;; k" := (bind c (fun _ => k))
  (at level 61, right associativity).

(** [try: c  except <handled> as e: handler e] *)
Definition try_except {E A} (c : Eff E A) (handler : Exn -> option (Eff E A))
  : Eff E A :=
  fun tr =>
    match c tr with
    | (Ok a, tr') => (Ok a, tr')
    | (Raise e, tr') =>
        match handler e with
        | Some k => k tr'
        | None => (Raise e, tr')
        end
    end.

Definition emit {E} (ev : E) : Eff E unit := fun tr => (Ok tt, tr ++ [ev]).

Definition lift {E A} (r : Result A) : Eff E A := fun tr => (r, tr).

(** The computations of [pyavd.py]. *)
Definition M (A : Type) : Type := Eff Event A.

Definition logger (lvl : Level) (fmt : string) : M unit := emit (EvLog lvl fmt).

(** [x or b] with [b] the empty bytes, for an optional bytes value. *)
Definition or_empty (x : option string) : string :=
  match x with
  | Some b => if PyStr.is_empty b then EmptyString else b
  | None => EmptyString
  end.

Section Pyavd.

Variable h : Host.

Definition is_file (p : string) : M bool :=
  fun tr => (Ok (path_is_file h tr p), tr ++ [EvIsFile p]).

(** [subprocess.run(cmd, stdout=PIPE, stderr=PIPE, check=True,
    timeout=timeout)] *)
Definition subprocess_run (cmd : list string) (timeout : option Z)
  : M CompletedProcess :=
  fun tr =>
    let tr' := tr ++ [EvRun cmd timeout] in
    match spawn h tr cmd timeout with
    | Exited rc out err =>
        if rc =? 0 then (Ok (mkCompletedProcess cmd rc out err), tr')
        else (Raise (CalledProcessError cmd rc (Some out) (Some err)), tr')
    | TimedOut => (Raise TimeoutExpired, tr')
    | SpawnFailed => (Raise OSError, tr')
    end.

(** The command [_run] hands to [subprocess.run]: on Windows a file
    without an [.exe] or [.com] suffix goes through [cmd /c]. *)
Definition wrap_cmd (cmd : list string) : M (list string) :=
  if PyStr.startswith (sys_platform h) "win" then
    match cmd with
    | exe :: _ =>
        f <- is_file exe ;;
        let sfx := PyStr.lower (path_suffix h exe) in
        if f && negb (String.eqb sfx ".exe" || String.eqb sfx ".com")
        then ret ("cmd" :: "/c" :: cmd)
        else ret cmd
    | [] => ret cmd
    end
  else ret cmd.

(** [_run(cmd, timeout=timeout)] *)
Definition _run (cmd : list string) (timeout : option Z)
  : M CompletedProcess :=
  cmd' <- wrap_cmd cmd ;;
  logger DEBUG "$ %s" ;;;
  try_except (subprocess_run cmd' timeout)
    (fun e =>
       match e with
       | CalledProcessError c rc out err =>
           Some (logger DEBUG "Command %r exited %d; returning empty output" ;;;
                 ret (mkCompletedProcess c rc (or_empty out) (or_empty err)))
       | _ => None
       end).

(** The command and the trace at the moment [_run] reaches
    [subprocess.run]. *)
Definition spawn_point (cmd : list string) (tr : Trace) : list string * Trace :=
  match wrap_cmd cmd tr with
  | (Ok c, tr') => (c, tr' ++ [EvLog DEBUG "$ %s"])
  | (Raise _, tr') => (cmd, tr')
  end.

(** [b.decode().splitlines()] *)
Definition decode_lines (b : string) : M (list string) :=
  match decode_splitlines h b with
  | Some ls => ret ls
  | None => raise UnicodeDecodeError
  end.

(** [Target.get_targets()] *)
Definition get_targets : M (list Target) :=
  cp <- _run [avdmanager h; "list"; "target"] None ;;
  ls <- decode_lines (stdout cp) ;;
  lift (list_of_gen (Target_parse (int_max_str_digits h) ls)).

(** [Device.get_devices()] *)
Definition get_devices : M (list Device) :=
  cp <- _run [avdmanager h; "list"; "device"] None ;;
  ls <- decode_lines (stdout cp) ;;
  lift (list_of_gen (Device_parse (int_max_str_digits h) ls)).

(** *** The AVD record and the patterns of its listing *)

Record AVD : Type := mkAVD {
  avd_name : string;
  _device : option Device;
  avd_path : option string;
  avd_target : option string;
  avd_skin : option string;
  sdcard_size : option string;
  based_on : option string;
  avd_abi : option string;
  (** the handle of the emulator process, as its pid *)
  process : option Z
}.

(** [AVD()] *)
Definition AVD_default : AVD :=
  mkAVD "invalid" None None None None None None None None.

Definition AVD_is_empty (a : AVD) : bool := String.eqb (avd_name a) "invalid".

Definition set_name (a : AVD) (v : string) : AVD :=
  mkAVD v (_device a) (avd_path a) (avd_target a) (avd_skin a)
        (sdcard_size a) (based_on a) (avd_abi a) (process a).

Definition set__device (a : AVD) (d : option Device) : AVD :=
  mkAVD (avd_name a) d (avd_path a) (avd_target a) (avd_skin a)
        (sdcard_size a) (based_on a) (avd_abi a) (process a).

Definition set_path (a : AVD) (v : option string) : AVD :=
  mkAVD (avd_name a) (_device a) v (avd_target a) (avd_skin a)
        (sdcard_size a) (based_on a) (avd_abi a) (process a).

Definition set_target (a : AVD) (v : string) : AVD :=
  mkAVD (avd_name a) (_device a) (avd_path a) (Some v) (avd_skin a)
        (sdcard_size a) (based_on a) (avd_abi a) (process a).

Definition set_skin (a : AVD) (v : string) : AVD :=
  mkAVD (avd_name a) (_device a) (avd_path a) (avd_target a) (Some v)
        (sdcard_size a) (based_on a) (avd_abi a) (process a).

Definition set_sdcard_size (a : AVD) (v : string) : AVD :=
  mkAVD (avd_name a) (_device a) (avd_path a) (avd_target a) (avd_skin a)
        (Some v) (based_on a) (avd_abi a) (process a).

Definition set_based_on_abi (a : AVD) (b v : string) : AVD :=
  mkAVD (avd_name a) (_device a) (avd_path a) (avd_target a) (avd_skin a)
        (sdcard_size a) (Some b) (Some v) (process a).

Definition is_open (c : ascii) : bool := Ascii.eqb c "[" || Ascii.eqb c "(".
Definition is_close (c : ascii) : bool := Ascii.eqb c "]" || Ascii.eqb c ")".

(** Whether a closing bracket comes before any newline. *)
Fixpoint closes (s : string) : bool :=
  match s with
  | EmptyString => false
  | String c r =>
      if is_close c then true
      else if PyStr.is_newline c then false
      else closes r
  end.

Fixpoint sub_brackets_from (inside : bool) (s : string) : string :=
  match s with
  | EmptyString => EmptyString
  | String c r =>
      if inside then
        if is_close c then sub_brackets_from false r
        else sub_brackets_from true r
      else if is_open c && closes r then sub_brackets_from true r
      else String c (sub_brackets_from false r)
  end.

(** [re.sub(p, "", s)] for the pattern [p] of the [device] setter: an
    opening bracket, the shortest run without a newline, a closing
    bracket. *)
Definition sub_brackets (s : string) : string := sub_brackets_from false s.

(** Group 1 of [re.match(r"^(\S+)", value)]. *)
Definition first_token (value : string) : option string :=
  let '(tok, _) := PyStr.span (fun c => negb (PyStr.isspace c)) value in
  if PyStr.is_empty tok then None else Some tok.

Fixpoint drop (n : nat) (s : string) : string :=
  match n, s with
  | O, _ => s
  | S n', String _ r => drop n' r
  | S _, EmptyString => EmptyString
  end.

(** [.+$] against all of [s]: the match runs to the end of [s], or to one
    final newline. *)
Definition dot_plus_end (s : string) : option string :=
  let '(body, tl) := PyStr.span (fun c => negb (PyStr.is_newline c)) s in
  if PyStr.is_empty body then None
  else if PyStr.is_empty tl
          || String.eqb tl (String (ascii_of_N 10) EmptyString)
       then Some body
       else None.

(** [\s+(?P<abi>.+)$] against [s], whose first [j] characters are
    whitespace: the greedy [\s+] takes [j] of them, then one fewer. *)
Fixpoint abi_group (j : nat) (s : string) : option string :=
  match j with
  | O => None
  | S j' =>
      match dot_plus_end (drop j s) with
      | Some g => Some g
      | None => abi_group j' s
      end
  end.

(** [\s+Tag/ABI:\s+(?P<abi>.+)$] against all of [s]. *)
Definition based_on_tail (s : string) : option string :=
  let '(ws, r1) := PyStr.span PyStr.isspace s in
  if PyStr.is_empty ws then None
  else
    match PyStr.strip_prefix "Tag/ABI:" r1 with
    | None => None
    | Some r2 =>
        abi_group (String.length (fst (PyStr.span PyStr.isspace r2))) r2
    end.

(** The lazy [(?P<android>.+?)] grows one character at a time; [acc] is
    the group so far. *)
Fixpoint based_on_from (acc s : string) : option (string * string) :=
  match based_on_tail s with
  | Some g => Some (acc, g)
  | None =>
      match s with
      | EmptyString => None
      | String c r =>
          if PyStr.is_newline c then None
          else based_on_from (acc ++ String c EmptyString)%string r
      end
  end.

(** [_BASED_ON_RE.match(value)]: the groups [android] and [abi]. *)
Definition based_on_match (value : string) : option (string * string) :=
  match value with
  | EmptyString => None
  | String c r =>
      if PyStr.is_newline c then None
      else based_on_from (String c EmptyString) r
  end.

(** [_AVD_SECTION.match(line)]: four dashes or more. *)
Definition avd_section_match (line : string) : bool :=
  PyStr.startswith line "----".

Definition alias_is (cleaned : string) (d : Device) : bool :=
  match device_id_alias d with
  | Some a => String.eqb a cleaned
  | None => false
  end.

(** The [device] setter: [self.device = device_str]. *)
Definition set_device (self : AVD) (device_str : string) : M AVD :=
  let cleaned := PyStr.strip (sub_brackets device_str) in
  ds <- get_devices ;;
  ret (set__device self (find (alias_is cleaned) ds)).

(** The [DEVICE] case of [_parse_avd_list]: the setter runs on the whole
    value, then again on the first run of non-blank characters. *)
Definition assign_device (current : AVD) (value : string) : M AVD :=
  c1 <- set_device current value ;;
  match first_token value with
  | None => raise AttributeError
  | Some alias => set_device c1 alias
  end.

(** The alias the [DEVICE] case ends up looking for. *)
Definition device_key (value : string) : option string :=
  match first_token value with
  | Some alias => Some (PyStr.strip (sub_brackets alias))
  | None => None
  end.

(** One iteration of the loop of [_parse_avd_list]. *)
Definition avd_line (current : AVD) (raw : string) : M (list AVD * AVD) :=
  let line := PyStr.strip raw in
  if PyStr.is_empty line then ret ([], current)
  else if avd_section_match line then
    ret (if negb (AVD_is_empty current) then [current] else [], AVD_default)
  else
    match PyStr.split_once ":" line with
    | None => ret ([], current)
    | Some (k0, v0) =>
        let key := PyStr.upper (PyStr.strip k0) in
        let value := PyStr.strip v0 in
        if String.eqb key "NAME" then ret ([], set_name current value)
        else if String.eqb key "DEVICE" then
          c <- assign_device current value ;; ret ([], c)
        else if String.eqb key "PATH" then
          ret ([], set_path current (Some value))
        else if String.eqb key "TARGET" then ret ([], set_target current value)
        else if String.eqb key "SKIN" then ret ([], set_skin current value)
        else if String.eqb key "SDCARD" then
          ret ([], set_sdcard_size current value)
        else if String.eqb key "BASED ON" then
          match based_on_match value with
          | Some (a, b) =>
              ret ([], set_based_on_abi current (PyStr.strip a) (PyStr.strip b))
          | None => ret ([], current)
          end
        else ret ([], current)
    end.

Fixpoint avd_loop (current : AVD) (lines : list string)
  : Trace -> Gen AVD * Trace :=
  fun tr =>
    match lines with
    | [] => ((if negb (AVD_is_empty current) then [current] else [], None), tr)
    | raw :: rest =>
        match avd_line current raw tr with
        | (Raise e, tr') => (([], Some e), tr')
        | (Ok (out, current'), tr') =>
            let '((ys, err), tr'') := avd_loop current' rest tr' in
            ((out ++ ys, err), tr'')
        end
    end.

(** [_parse_avd_list(lines)] *)
Definition _parse_avd_list (lines : list string) : Trace -> Gen AVD * Trace :=
  avd_loop AVD_default lines.

(** [AVD.get_avds()] *)
Definition get_avds : M (list AVD) :=
  cp <- _run [avdmanager h; "list"; "avd"] None ;;
  output <- decode_lines (stdout cp) ;;
  fun tr => let '(g, tr') := _parse_avd_list output tr in (list_of_gen g, tr').

(** [AVD.get_by_name(name)] *)
Definition get_by_name (name : string) : M (option AVD) :=
  avds <- get_avds ;;
  ret (find (fun a => String.eqb (avd_name a) name) avds).

(** *** Creation and deletion *)

(** The [device] argument of [create]: a [Device], an [int] or a [str]. *)
Inductive DeviceRef : Type :=
| RefDevice (d : Device)
| RefInt (n : Z)
| RefStr (s : string).

Definition name_is (s : string) (d : Device) : bool :=
  match device_name d with
  | Some n => String.eqb n s
  | None => false
  end.

(** [[flag, str(value)]] when [value] is truthy. *)
Definition opt_flag (flag : string) (value : option string) : list string :=
  match value with
  | Some v => if PyStr.is_empty v then [] else [flag; v]
  | None => []
  end.

(** The device id [create] passes on. *)
Definition resolve_device (device : DeviceRef) : M Z :=
  match device with
  | RefDevice d => ret (device_id d)
  | RefInt n => ret n
  | RefStr s =>
      ds <- get_devices ;;
      match find (fun d => alias_is s d || name_is s d) ds with
      | None => raise ValueError
      | Some m => ret (device_id m)
      end
  end.

(** The command line [create] builds. *)
Definition create_cmd (name package : string) (dev_id : Z)
    (sdcard tag abi skin path : option string)
    (force snapshot silent verbose : bool) : list string :=
  [avdmanager h]
  ++ (if silent || verbose
      then [if silent then "--silent" else "--verbose"] else [])
  ++ ["create"; "avd"; "-n"; name; "--package"; package;
      "--device"; PyStr.str_of_int dev_id]
  ++ opt_flag "--sdcard" sdcard
  ++ opt_flag "--tag" tag
  ++ opt_flag "--abi" abi
  ++ opt_flag "--skin" skin
  ++ opt_flag "--path" path
  ++ (if force then ["--force"] else [])
  ++ (if snapshot then ["--snapshot"] else []).

(** [AVD.create(name=..., package=..., device=..., ...)] *)
Definition create (name package : string) (device : DeviceRef)
    (sdcard tag abi skin path : option string)
    (force snapshot silent verbose : bool) : M AVD :=
  if silent && verbose then raise ValueError
  else
    dev_id <- resolve_device device ;;
    _run (create_cmd name package dev_id sdcard tag abi skin path
                     force snapshot silent verbose) None ;;;
    avd <- get_by_name name ;;
    match avd with
    | Some a => ret a
    | None => raise AssertionError
    end.

(** [exc.stderr.decode()] *)
Definition decode_stderr (err : option string) : M unit :=
  match err with
  | None => raise AttributeError
  | Some b =>
      match decode_splitlines h b with
      | Some _ => ret tt
      | None => raise UnicodeDecodeError
      end
  end.

(** [self.delete()] *)
Definition delete (self : AVD) : M bool :=
  try_except
    (_run [avdmanager h; "delete"; "avd"; "-n"; avd_name self] None ;;;
     ret true)
    (fun exc =>
       match exc with
       | CalledProcessError _ _ _ err =>
           Some (decode_stderr err ;;;
                 logger ERROR "Delete failed: %s" ;;;
                 ret false)
       | _ => None
       end).

(** *** Renaming *)

(** [os.path.dirname] and [os.path.join] of the platform. *)
Variable os_path_dirname : string -> string.
Variable os_path_join : string -> string -> string.

(** [self] after the assignments of a successful [rename]. *)
Definition renamed (self : AVD) (new_name : string) : AVD :=
  let moved :=
    match avd_path self with
    | Some p =>
        if PyStr.is_empty p then self
        else set_path self
               (Some (os_path_join (os_path_dirname p)
                        (new_name ++ ".avd")%string))
    | None => self
    end in
  set_name moved new_name.

(** [self.rename(new_name)]: the value returned, and [self] afterwards. *)
Definition rename (self : AVD) (new_name : string) : M (bool * AVD) :=
  try_except
    (_run [avdmanager h; "move"; "avd"; "-n"; avd_name self; "-r"; new_name]
          None ;;;
     ret (true, renamed self new_name))
    (fun exc =>
       match exc with
       | CalledProcessError _ _ _ err =>
           Some (decode_stderr err ;;;
                 logger ERROR "Rename failed: %s" ;;;
                 ret (false, self))
       | _ => None
       end).

(** *** Waiting for the boot to complete *)

Definition now : M Q := fun tr => (Ok (time_time h tr), tr ++ [EvTime]).

Definition sleep (secs : Z) : M unit := emit (EvSleep secs).

Definition client_list : M (list DeviceInfo) :=
  fun tr => (adb_list h tr, tr ++ [EvAdbList]).

Definition shell (s : string) (argv : list string) : M string :=
  fun tr => (adb_shell h tr s argv, tr ++ [EvAdbShell s argv]).

(** [tags.get(key)] *)
Fixpoint tags_get (key : string) (t : list (string * string)) : option string :=
  match t with
  | [] => None
  | (k, v) :: r => if String.eqb k key then Some v else tags_get key r
  end.

Definition product_is (name : string) (info : DeviceInfo) : bool :=
  match tags_get "product" (tags info) with
  | Some p => String.eqb p name
  | None => false
  end.

(** [a < b] on clock readings. *)
Definition time_lt (a b : Q) : bool := negb (Qle_bool b a).

(** What the polling loop has come to when the fuel is spent. *)
Inductive Polling : Type := Booted | Expired | StillPolling.

(** The [while] loop of [wait_boot_completed]; every test of its condition
    takes one unit of fuel. *)
Fixpoint boot_loop (fuel : nat) (s : string) (deadline : Q) : M Polling :=
  match fuel with
  | O => ret StillPolling
  | S n =>
      t <- now ;;
      if time_lt t deadline then
        booted <- try_except
                    (out <- shell s ["getprop"; "sys.boot_completed"] ;;
                     if String.eqb (PyStr.strip out) "1"
                     then logger INFO "Boot completed for %s" ;;; ret true
                     else ret false)
                    (fun _ => Some (ret false)) ;;
        if booted then ret Booted
        else sleep 5 ;;; boot_loop n s deadline
      else ret Expired
  end.

(** [self.wait_boot_completed(timeout)]; [None] when the fuel ran out
    while the loop was still polling. *)
Definition wait_boot_completed (fuel : nat) (self : AVD) (timeout : Z)
  : M (option unit) :=
  t0 <- now ;;
  let deadline := (t0 + inject_Z timeout)%Q in
  infos <- client_list ;;
  match find (product_is (avd_name self)) infos with
  | None => raise RuntimeError
  | Some info =>
      if PyStr.is_empty (serial info) then raise RuntimeError
      else
        r <- boot_loop fuel (serial info) deadline ;;
        match r with
        | Booted => ret (Some tt)
        | Expired => raise BootTimeoutError
        | StillPolling => ret None
        end
  end.

End Pyavd.

(** ** Tool discovery: [android_sdk_utils/_android_sdk_utils.py] *)

Module AndroidSdkUtils.

(** Every look at the environment or at the file system. *)
Inductive Probe : Type :=
| PGetenv (key : string)
| PWhich (name : string)
| PExpanduser (p : string)
| PIsFile (p : string)
| PExists (p : string)
| PGlob (p pattern : string)
| PRglob (p pattern : string)
| PHome.

(** The environment, [pathlib] and [shutil]; a path is held as its text. *)
Record SdkHost : Type := mkSdkHost {
  platform : string;
  (** [os.getenv(key)] *)
  getenv : string -> option string;
  (** [shutil.which(name)] *)
  which : string -> option string;
  (** [Path(s)] *)
  Path : string -> string;
  (** [p.expanduser()]; [None] is [RuntimeError] *)
  expanduser : string -> option string;
  (** [p / name] *)
  joinpath : string -> string -> string;
  (** [p.is_file()] *)
  isfile : string -> bool;
  (** [p.exists()] *)
  exists_ : string -> bool;
  (** [list(p.glob(pattern))] *)
  glob : string -> string -> list string;
  (** [list(p.rglob(pattern))] *)
  rglob : string -> string -> list string;
  (** [Path.home()]; [None] is [RuntimeError] *)
  home : option string
}.

Definition P (A : Type) : Type := Eff Probe A.

(** An optional string when it is truthy: neither [None] nor empty. *)
Definition truthy (x : option string) : option string :=
  match x with
  | Some s => if PyStr.is_empty s then None else Some s
  | None => None
  end.

Definition supported (tool : string) : bool :=
  String.eqb tool "adb" || String.eqb tool "emulator"
  || String.eqb tool "avdmanager".

Section Locator.

Variable w : SdkHost.

Definition os_getenv (key : string) : P (option string) :=
  fun tr => (Ok (getenv w key), tr ++ [PGetenv key]).

Definition shutil_which (name : string) : P (option string) :=
  fun tr => (Ok (which w name), tr ++ [PWhich name]).

Definition do_expanduser (p : string) : P string :=
  fun tr => (match expanduser w p with
             | Some q => Ok q
             | None => Raise RuntimeError
             end, tr ++ [PExpanduser p]).

Definition is_file (p : string) : P bool :=
  fun tr => (Ok (isfile w p), tr ++ [PIsFile p]).

Definition path_exists (p : string) : P bool :=
  fun tr => (Ok (exists_ w p), tr ++ [PExists p]).

Definition do_glob (p pattern : string) : P (list string) :=
  fun tr => (Ok (glob w p pattern), tr ++ [PGlob p pattern]).

Definition do_rglob (p pattern : string) : P (list string) :=
  fun tr => (Ok (rglob w p pattern), tr ++ [PRglob p pattern]).

Definition path_home : P string :=
  fun tr => (match home w with
             | Some q => Ok q
             | None => Raise RuntimeError
             end, tr ++ [PHome]).

(** [_windows_name(tool)] *)
Definition _windows_name (tool : string) : string :=
  if PyStr.startswith (platform w) "win" then
    if String.eqb tool "avdmanager" then (tool ++ ".bat")%string
    else (tool ++ ".exe")%string
  else tool.

(** The first [d] of [dirs] for which [d / exe] is a file. *)
Fixpoint first_file (exe : string) (dirs : list string) : P (option string) :=
  match dirs with
  | [] => ret None
  | d :: rest =>
      let cand := joinpath w d exe in
      f <- is_file cand ;;
      if f then ret (Some cand) else first_file exe rest
  end.

(** [_scan_sdk(root, tool, deep)] *)
Definition _scan_sdk (root tool : string) (deep : bool) : P (option string) :=
  root <- do_expanduser root ;;
  let exe := _windows_name tool in
  let cmdline := joinpath w root "cmdline-tools" in
  globbing <- (if deep then ret true else path_exists cmdline) ;;
  dirs <- (if String.eqb tool "avdmanager" then
             found <- (if globbing then do_glob cmdline "*/bin" else ret []) ;;
             ret (found ++ [joinpath w (joinpath w root "tools") "bin"])
           else if String.eqb tool "adb" then
             ret [joinpath w root "platform-tools"]
           else if String.eqb tool "emulator" then
             ret [joinpath w root "emulator"]
           else raise KeyError) ;;
  hit <- first_file exe dirs ;;
  match hit with
  | Some cand => ret (Some cand)
  | None =>
      if deep then
        found <- do_rglob root exe ;;
        match found with
        | cand :: _ => ret (Some cand)
        | [] => ret None
        end
      else ret None
  end.

(** [_default_sdk_roots()] *)
Definition _default_sdk_roots : P (list string) :=
  hm <- path_home ;;
  if PyStr.startswith (platform w) "darwin" then
    lib <- do_expanduser (Path w "~/Library/Android/sdk") ;;
    ret [lib; joinpath w (joinpath w hm "Android") "Sdk"]
  else if PyStr.startswith (platform w) "win" then
    local <- os_getenv "LOCALAPPDATA" ;;
    let base := Path w (match local with
                        | Some s => s
                        | None => EmptyString
                        end) in
    ret [joinpath w (joinpath w base "Android") "Sdk";
         joinpath w
           (joinpath w (joinpath w (joinpath w hm "AppData") "Local")
              "Android") "Sdk"]
  else
    ret [joinpath w (joinpath w hm "Android") "Sdk";
         Path w "/opt/android-sdk"].

(** The first root of [roots] in which [_scan_sdk] finds the tool. *)
Fixpoint scan_roots (tool : string) (roots : list string) : P (option string) :=
  match roots with
  | [] => ret None
  | r :: rest =>
      p <- _scan_sdk r tool false ;;
      match p with
      | Some hit => ret (Some hit)
      | None => scan_roots tool rest
      end
  end.

(** The loop over [FIND_ANDROID_EXTRA_DIRS], each entry already stripped. *)
Fixpoint scan_extra (tool : string) (roots : list string) : P (option string) :=
  match roots with
  | [] => ret None
  | r :: rest =>
      if PyStr.is_empty r then scan_extra tool rest
      else
        root <- do_expanduser (Path w r) ;;
        p <- _scan_sdk root tool true ;;
        match p with
        | Some hit => ret (Some hit)
        | None => scan_extra tool rest
        end
  end.

(** Stages 2 to 5 of [find_android_tool]. *)
Definition find_beyond_override (tool : string) : P string :=
  first <- shutil_which tool ;;
  path_hit <- (match truthy first with
               | Some s => ret (Some s)
               | None => second <- shutil_which (_windows_name tool) ;;
                         ret (truthy second)
               end) ;;
  match path_hit with
  | Some s => ret (Path w s)
  | None =>
      primary <- os_getenv "ANDROID_SDK_ROOT" ;;
      sdk_root <- (match truthy primary with
                   | Some s => ret (Some s)
                   | None => secondary <- os_getenv "ANDROID_HOME" ;;
                             ret (truthy secondary)
                   end) ;;
      p <- (match sdk_root with
            | Some s => _scan_sdk (Path w s) tool false
            | None => ret None
            end) ;;
      match p with
      | Some hit => ret hit
      | None =>
          roots <- _default_sdk_roots ;;
          p <- scan_roots tool roots ;;
          match p with
          | Some hit => ret hit
          | None =>
              given <- os_getenv "FIND_ANDROID_EXTRA_DIRS" ;;
              let extra := match given with
                           | Some s => s
                           | None => EmptyString
                           end in
              p <- scan_extra tool (map PyStr.strip (PyStr.split "," extra)) ;;
              match p with
              | Some hit => ret hit
              | None => raise FileNotFoundError
              end
          end
      end
  end.

(** [find_android_tool(tool)] *)
Definition find_android_tool (tool : string) : P string :=
  if negb (supported tool) then raise ValueError
  else
    explicit <- os_getenv ("ANDROID_" ++ PyStr.upper tool)%string ;;
    match truthy explicit with
    | Some s =>
        p <- do_expanduser (Path w s) ;;
        f <- is_file p ;;
        if f then do_expanduser (Path w s) else find_beyond_override tool
    | None => find_beyond_override tool
    end.

End Locator.

End AndroidSdkUtils.

(** ** Starting and stopping the emulator *)

(** What [start], [stop] and [kill] do to the outside world. *)
Inductive Control : Type :=
| CtlLog (lvl : Level) (fmt : string)
| CtlPopen (cmd : list string)
| CtlWait (pid : Z)
| CtlKill (pid : Z)
| CtlShell (serial : string) (argv : list string).

(** The emulator binary, [shlex], [subprocess.Popen] and the adb client; a
    process handle is held as its pid. *)
Record ControlHost : Type := mkControlHost {
  (** [_TOOLS.emulator] *)
  emulator_tool : string;
  (** [shlex.split(s)]; [None] is [ValueError] *)
  shlex_split : string -> option (list string);
  (** [subprocess.Popen(cmd, stdout=PIPE, stderr=PIPE)]; [None] is
      [OSError] *)
  popen : list Control -> list string -> option Z;
  (** [_adb_client().device(serial).shell(argv)] *)
  emu_shell : list Control -> string -> list string -> Result string
}.

Section Runtime.

Variable k : ControlHost.

Definition set_process (a : AVD) (p : option Z) : AVD :=
  mkAVD (avd_name a) (_device a) (avd_path a) (avd_target a) (avd_skin a)
        (sdcard_size a) (based_on a) (avd_abi a) p.

(** [self.start(detach=..., extra_emulator_args=...)]: the handle
    returned, and [self] afterwards. *)
Definition start (self : AVD) (detach : bool)
    (extra_emulator_args : option string) : Eff Control (Z * AVD) :=
  match process self with
  | Some _ => raise RuntimeError
  | None =>
      extra <- (match extra_emulator_args with
                | Some e =>
                    if PyStr.is_empty e then ret []
                    else match shlex_split k e with
                         | Some toks => ret toks
                         | None => raise ValueError
                         end
                | None => ret []
                end) ;;
      let cmd := [emulator_tool k; "-avd"; avd_name self] ++ extra in
      emit (CtlLog INFO "Starting emulator (%s)") ;;;
      proc <- (fun tr => (match popen k tr cmd with
                          | Some pid => Ok pid
                          | None => Raise OSError
                          end, tr ++ [CtlPopen cmd])) ;;
      (if detach then ret tt else emit (CtlWait proc)) ;;;
      ret (proc, set_process self (Some proc))
  end.

(** [self.stop(port=port)] *)
Definition stop (self : AVD) (port : Z) : Eff Control bool :=
  let serial := ("emulator-" ++ PyStr.str_of_int port)%string in
  try_except
    ((fun tr => (emu_shell k tr serial ["emu"; "kill"],
                 tr ++ [CtlShell serial ["emu"; "kill"]])) ;;;
     emit (CtlLog INFO "Stop signal sent to %s") ;;;
     ret true)
    (fun _ => Some (emit (CtlLog ERROR "Failed to stop emulator: %s") ;;;
                    ret false)).


End Runtime.

(** The processes spawned, oldest first. *)
Fixpoint spawned (tr : list Control) : list (list string) :=
  match tr with
  | [] => []
  | CtlPopen cmd :: r => cmd :: spawned r
  | _ :: r => spawned r
  end.

(** ** Kinds of lines *)

Fixpoint all_chars (f : ascii -> bool) (s : string) : bool :=
  match s with
  | EmptyString => true
  | String c r => f c && all_chars f r
  end.

(** A line that [Device._parse] passes over: blank, or neither a
    delimiter nor an identifier line nor a field of the mapping. *)
Definition Device_ignores (raw : string) : bool :=
  let line := PyStr.strip raw in
  PyStr.is_empty line
  || (negb (PyStr.startswith line "---------")
      && match id_re_match line with
         | Some _ => false
         | None =>
             match PyStr.split_once ":" line with
             | None => true
             | Some (k0, _) =>
                 let k := PyStr.upper (PyStr.strip k0) in
                 negb (String.eqb k "NAME" || String.eqb k "OEM"
                       || String.eqb k "TAG")
             end
         end).

(** A line that [Target._parse] passes over. *)
Definition Target_ignores (raw : string) : bool :=
  let line := PyStr.strip raw in
  PyStr.is_empty line
  || (negb (PyStr.startswith line "----------")
      && match id_re_match line with
         | Some _ => false
         | None =>
             match PyStr.split_once ":" line with
             | None => true
             | Some (k0, _) =>
                 let k := PyStr.upper (PyStr.strip k0) in
                 negb (String.eqb k "NAME" || String.eqb k "TYPE"
                       || String.eqb k "API LEVEL"
                       || String.eqb k "REVISION")
             end
         end).

(** A line of the AVD listing that reaches the [DEVICE] case. *)
Definition is_device_line (raw : string) : bool :=
  let line := PyStr.strip raw in
  negb (PyStr.is_empty line)
  && negb (avd_section_match line)
  && match PyStr.split_once ":" line with
     | Some (k0, _) => String.eqb (PyStr.upper (PyStr.strip k0)) "DEVICE"
     | None => false
     end.

(** A record with an identifier: a non-negative id and a non-empty
    alias. *)
Definition Device_identified (d : Device) : Prop :=
  0 <= device_id d
  /\ exists a, device_id_alias d = Some a /\ a <> EmptyString.

Definition Target_identified (t : Target) : Prop :=
  0 <= target_id t
  /\ exists a, target_id_alias t = Some a /\ a <> EmptyString.

(** A remote shell that never reports the boot as completed. *)
Definition never_booted (h : Host) : Prop :=
  forall tr s argv out,
    adb_shell h tr s argv = Ok out -> PyStr.strip out <> "1".

(** ** Reading traces *)

(** The commands handed to [subprocess.run], oldest first. *)
Fixpoint commands_run (tr : Trace) : list (list string) :=
  match tr with
  | [] => []
  | EvRun cmd _ :: r => cmd :: commands_run r
  | _ :: r => commands_run r
  end.

(** The remote shell queries, oldest first. *)
Fixpoint polls (tr : Trace) : list (list string) :=
  match tr with
  | [] => []
  | EvAdbShell _ argv :: r => argv :: polls r
  | _ :: r => polls r
  end.

(** The messages logged at level [ERROR]. *)
Fixpoint errors_logged (tr : Trace) : list string :=
  match tr with
  | [] => []
  | EvLog ERROR fmt :: r => fmt :: errors_logged r
  | _ :: r => errors_logged r
  end.

(** [cmd[-len(tail):] == tail] for a non-empty [tail]. *)
Definition ends_with (cmd tail : list string) : Prop :=
  exists front, cmd = front ++ tail.

(** The trailing arguments of the creation command for [name], [package]
    and the device id [dev]. *)
Definition create_tail (name package dev : string) : list string :=
  ["create"; "avd"; "-n"; name; "--package"; package; "--device"; dev].

(** ** Concrete hosts *)

Definition newline : ascii := ascii_of_N 10.

(** [sep.join(lines)] with a newline for [sep]. *)
Fixpoint join_lines (lines : list string) : string :=
  match lines with
  | [] => EmptyString
  | [l] => l
  | l :: rest => (l ++ String newline (join_lines rest))%string
  end.

(** A line between double quotes. *)
Definition quoted (s : string) : string :=
  String dquote (s ++ String dquote EmptyString).

Definition is_listing (what : string) (cmd : list string) : bool :=
  String.eqb (nth 1 cmd EmptyString) "list"
  && String.eqb (nth 2 cmd EmptyString) what.

(** A Linux host whose [avdmanager] prints [devices] for [list device] and
    [avds] for [list avd], and exits with [rc] on every other command; one
    emulator is connected and has not booted. *)
Definition listing_host (devices avds : list string) (rc : Z) : Host :=
  mkHost "linux" "/sdk/bin/avdmanager" "/sdk/emulator" "/sdk/adb" 4300
    (fun _ _ => true)
    (fun _ => EmptyString)
    (fun _ cmd _ =>
       if is_listing "device" cmd then Exited 0 (join_lines devices) EmptyString
       else if is_listing "avd" cmd then Exited 0 (join_lines avds) EmptyString
       else Exited rc EmptyString "failed")
    (fun b => Some (PyStr.split newline b))
    (fun tr => inject_Z (Z.of_nat (List.length tr)))
    (fun _ => Ok [mkDeviceInfo "emulator-5554"
                    [("product", "Pixel_4_API_34")]])
    (fun _ _ _ => Ok "0").

(** The device listing of the test suite. *)
Definition device_listing : list string :=
  [ "---------";
    ("id: 0 or " ++ quoted "pixel")%string;
    "    Name: Pixel 4";
    "    OEM : Google";
    "    Tag : google";
    EmptyString;
    "---------";
    ("id: 1 or " ++ quoted "Nexus_5X")%string;
    "    Name: Nexus 5X";
    "    OEM : Google";
    "    Tag : default" ].


(** A device listing in which a user-defined profile named [pixel] comes
    before the stock profile whose alias is [pixel]. *)
Definition custom_device_listing : list string :=
  [ "---------";
    ("id: 3 or " ++ quoted "my_phone")%string;
    "    Name: pixel";
    "    OEM : User";
    "---------";
    ("id: 0 or " ++ quoted "pixel")%string;
    "    Name: Pixel 4";
    "    OEM : Google" ].

(** A device listing with an alias of two words. *)
Definition nexus_device_listing : list string :=
  [ "---------";
    ("id: 7 or " ++ quoted "Nexus 5")%string;
    "    Name: Nexus 5";
    "    OEM : Google" ].

Definition nexus_avd_listing : list string :=
  [ "Name: N5_API_34";
    "Device: Nexus 5 (Google)" ].

(** A Linux machine on which only [/opt/tools/adb] is a file, named by
    [ANDROID_ADB], while [adb] is also on the [PATH]. *)
Definition override_host : AndroidSdkUtils.SdkHost :=
  AndroidSdkUtils.mkSdkHost "linux"
    (fun key => if String.eqb key "ANDROID_ADB" then Some "/opt/tools/adb"
                else None)
    (fun name => if String.eqb name "adb" then Some "/usr/bin/adb" else None)
    (fun s => s)
    (fun p => Some p)
    (fun p name => (p ++ "/" ++ name)%string)
    (fun p => String.eqb p "/opt/tools/adb")
    (fun _ => false)
    (fun _ _ => [])
    (fun _ _ => [])
    (Some "/home/user").

(** The host of the test suite, on which the emulator answers [1] to
    every shell query. *)
Definition booted_host : Host :=
  mkHost "linux" "/sdk/bin/avdmanager" "/sdk/emulator" "/sdk/adb" 4300
    (fun _ _ => true)
    (fun _ => EmptyString)
    (fun _ _ _ => Exited 0 EmptyString EmptyString)
    (fun b => Some (PyStr.split newline b))
    (fun tr => inject_Z (Z.of_nat (List.length tr)))
    (fun _ => Ok [mkDeviceInfo "emulator-5554"
                    [("product", "Pixel_4_API_34")]])
    (fun _ _ _ => Ok "1").

(** The text before the last slash, and two parts joined by a slash. *)
Fixpoint demo_dirname (s : string) : string :=
  match s with
  | EmptyString => EmptyString
  | String c r =>
      match PyStr.split_once "/" r with
      | Some _ => String c (demo_dirname r)
      | None => EmptyString
      end
  end.

Definition demo_join (a b : string) : string := (a ++ "/" ++ b)%string.

(** A machine on which every [Popen] gives the process 4242, [shlex.split]
    cuts at blanks and the emulator console answers [OK]. *)
Definition emulator_host : ControlHost :=
  mkControlHost "/sdk/emulator"
    (fun s => Some (PyStr.split " " s))
    (fun _ _ => Some 4242)
    (fun _ _ _ => Ok "OK").

(** A Linux machine with [adb] on the [PATH] and nothing else. *)
Definition path_host : AndroidSdkUtils.SdkHost :=
  AndroidSdkUtils.mkSdkHost "linux"
    (fun _ => None)
    (fun name => if String.eqb name "adb" then Some "/usr/bin/adb" else None)
    (fun s => s)
    (fun p => Some p)
    (fun p name => (p ++ "/" ++ name)%string)
    (fun _ => false)
    (fun _ => false)
    (fun _ _ => [])
    (fun _ _ => [])
    (Some "/home/user").


(** A Linux machine whose SDK, named by [ANDROID_HOME], holds
    [platform-tools/adb]. *)
Definition sdk_root_host : AndroidSdkUtils.SdkHost :=
  AndroidSdkUtils.mkSdkHost "linux"
    (fun key => if String.eqb key "ANDROID_HOME" then Some "/opt/sdk"
                else None)
    (fun _ => None)
    (fun s => s)
    (fun p => Some p)
    (fun p name => (p ++ "/" ++ name)%string)
    (fun p => String.eqb p "/opt/sdk/platform-tools/adb")
    (fun _ => false)
    (fun _ _ => [])
    (fun _ _ => [])
    (Some "/home/user").

(** ** Predicates of the statements *)

(** A record that is not the empty one. *)
Definition Target_filled (t : Target) : Prop := target_id t <> -1.
Definition Device_filled (d : Device) : Prop := device_id d <> -1.
Definition AVD_named (a : AVD) : Prop := avd_name a <> "invalid".

(** A [cur] that has seen no identifier line. *)
Definition Target_unfilled (cur : option Target) : Prop :=
  match cur with
  | Some c => target_id c = -1
  | None => True
  end.

Definition Device_unfilled (cur : option Device) : Prop :=
  match cur with
  | Some c => device_id c = -1
  | None => True
  end.

(** The clock of [h] never runs backwards. *)
Definition clock_monotone (h : Host) : Prop :=
  forall tr ext : Trace, (time_time h tr <= time_time h (tr ++ ext))%Q.

(** A computation that only adds events to the trace. *)
Definition extends {E A} (c : Eff E A) : Prop :=
  forall tr r tr', c tr = (r, tr') -> exists ext, tr' = tr ++ ext.

(** An AVD with a name and nothing else. *)
Definition AVD_of_name (name : string) : AVD :=
  mkAVD name None None None None None None None None.

(** * Properties *)

Ltac line_cases :=
  repeat match goal with
         | |- context [match ?x with _ => _ end] => destruct x eqn:?
         | H : Ok _ = Ok _ |- _ => inversion H; subst; clear H
         | H : Raise _ = Ok _ |- _ => discriminate H
         | |- _ -> _ => intro
         end.

(** ** The parsers of targets and devices *)

Section ParserFacts.

Variable limit : nat.

Lemma Target_is_empty_false (t : Target) :
  Target_is_empty t = false -> Target_filled t.
Proof.
  unfold Target_is_empty, Target_filled. intros E. now apply Z.eqb_neq.
Qed.

Lemma Device_is_empty_false (d : Device) :
  Device_is_empty d = false -> Device_filled d.
Proof.
  unfold Device_is_empty, Device_filled. intros E. now apply Z.eqb_neq.
Qed.

(** What a delimiter line or the end of the input lets through. *)
Lemma Target_flush_filled (cur : option Target) :
  Forall Target_filled
    match cur with
    | Some c => if negb (Target_is_empty c) then [c] else []
    | None => []
    end.
Proof.
  destruct cur as [c|]; [|constructor].
  destruct (Target_is_empty c) eqn:E; simpl; [constructor|].
  constructor; [now apply Target_is_empty_false | constructor].
Qed.

Lemma Device_flush_filled (cur : option Device) :
  Forall Device_filled
    match cur with
    | Some c => if negb (Device_is_empty c) then [c] else []
    | None => []
    end.
Proof.
  destruct cur as [c|]; [|constructor].
  destruct (Device_is_empty c) eqn:E; simpl; [constructor|].
  constructor; [now apply Device_is_empty_false | constructor].
Qed.

Lemma Target_line_filled cur raw out cur' :
  Target_line limit cur raw = Ok (out, cur') -> Forall Target_filled out.
Proof.
  unfold Target_line.
  destruct (PyStr.is_empty (PyStr.strip raw)).
  { intros H; inversion H; constructor. }
  destruct (PyStr.startswith (PyStr.strip raw) "----------").
  { intros H; inversion H; subst. apply Target_flush_filled. }
  line_cases; constructor.
Qed.

Lemma Device_line_filled cur raw out cur' :
  Device_line limit cur raw = Ok (out, cur') -> Forall Device_filled out.
Proof.
  unfold Device_line.
  destruct (PyStr.is_empty (PyStr.strip raw)).
  { intros H; inversion H; constructor. }
  destruct (PyStr.startswith (PyStr.strip raw) "---------").
  { intros H; inversion H; subst. apply Device_flush_filled. }
  line_cases; constructor.
Qed.

Lemma Target_loop_filled lines :
  forall cur, Forall Target_filled (yielded (Target_loop limit cur lines)).
Proof.
  induction lines as [|raw rest IH]; intros cur; simpl.
  - apply Target_flush_filled.
  - destruct (Target_line limit cur raw) as [[out cur']|e] eqn:E.
    + specialize (IH cur').
      destruct (Target_loop limit cur' rest) as [ys err]. simpl in *.
      apply Forall_app. split; [|exact IH].
      eapply Target_line_filled; eassumption.
    + constructor.
Qed.

Lemma Device_loop_filled lines :
  forall cur, Forall Device_filled (yielded (Device_loop limit cur lines)).
Proof.
  induction lines as [|raw rest IH]; intros cur; simpl.
  - apply Device_flush_filled.
  - destruct (Device_line limit cur raw) as [[out cur']|e] eqn:E.
    + specialize (IH cur').
      destruct (Device_loop limit cur' rest) as [ys err]. simpl in *.
      apply Forall_app. split; [|exact IH].
      eapply Device_line_filled; eassumption.
    + constructor.
Qed.

(** C7.  Whatever the lines, no record yielded by [Target._parse] or by
    [Device._parse] has the id -1 of an empty record; a section without an
    identifier line keeps that id and so is never yielded, whatever other
    fields it has. *)
Theorem parsers_never_yield_empty_id (lines : list string) :
  Forall (fun t => target_id t <> -1) (yielded (Target_parse limit lines))
  /\ Forall (fun d => device_id d <> -1) (yielded (Device_parse limit lines)).
Proof.
  split.
  - apply (Target_loop_filled lines None).
  - apply (Device_loop_filled lines None).
Qed.

(** Without an identifier line the record in progress stays empty, so that
    nothing is yielded, whatever other fields the lines set. *)
Lemma Target_line_unfilled cur raw out cur' :
  id_re_match (PyStr.strip raw) = None ->
  Target_unfilled cur ->
  Target_line limit cur raw = Ok (out, cur') ->
  out = [] /\ Target_unfilled cur'.
Proof.
  intros NoId U. unfold Target_line. rewrite NoId.
  assert (D : forall c, cur = Some c -> Target_is_empty c = true).
  { intros c ->. simpl in U. unfold Target_is_empty. now rewrite U. }
  destruct cur as [c|]; [specialize (D c eq_refl)|];
    line_cases; simpl in *; try rewrite D in *; simpl in *;
    try discriminate; auto.
Qed.

Lemma Target_without_id_yields_nothing lines :
  Forall (fun raw => id_re_match (PyStr.strip raw) = None) lines ->
  forall cur, Target_unfilled cur ->
  yielded (Target_loop limit cur lines) = [].
Proof.
  induction 1 as [|raw rest NoId _ IH]; intros cur U; simpl.
  - destruct cur as [c|]; [|reflexivity]. simpl in U.
    unfold Target_is_empty. now rewrite U.
  - destruct (Target_line limit cur raw) as [[out cur']|e] eqn:E;
      [|reflexivity].
    destruct (Target_line_unfilled _ _ _ _ NoId U E) as [-> U'].
    specialize (IH cur' U').
    destruct (Target_loop limit cur' rest) as [ys err]. exact IH.
Qed.

Lemma Device_line_unfilled cur raw out cur' :
  id_re_match (PyStr.strip raw) = None ->
  Device_unfilled cur ->
  Device_line limit cur raw = Ok (out, cur') ->
  out = [] /\ Device_unfilled cur'.
Proof.
  intros NoId U. unfold Device_line. rewrite NoId.
  assert (D : forall c, cur = Some c -> Device_is_empty c = true).
  { intros c ->. simpl in U. unfold Device_is_empty. now rewrite U. }
  destruct cur as [c|]; [specialize (D c eq_refl)|];
    line_cases; simpl in *; try rewrite D in *; simpl in *;
    try discriminate; auto.
Qed.

Lemma Device_without_id_yields_nothing lines :
  Forall (fun raw => id_re_match (PyStr.strip raw) = None) lines ->
  forall cur, Device_unfilled cur ->
  yielded (Device_loop limit cur lines) = [].
Proof.
  induction 1 as [|raw rest NoId _ IH]; intros cur U; simpl.
  - destruct cur as [c|]; [|reflexivity]. simpl in U.
    unfold Device_is_empty. now rewrite U.
  - destruct (Device_line limit cur raw) as [[out cur']|e] eqn:E;
      [|reflexivity].
    destruct (Device_line_unfilled _ _ _ _ NoId U E) as [-> U'].
    specialize (IH cur' U').
    destruct (Device_loop limit cur' rest) as [ys err]. exact IH.
Qed.

End ParserFacts.

(** ** The monad *)

Lemma bind_Ok {E A B} (c : Eff E A) (k : A -> Eff E B) tr b tr' :
  bind c k tr = (Ok b, tr') ->
  exists a t, c tr = (Ok a, t) /\ k a t = (Ok b, tr').
Proof.
  unfold bind. destruct (c tr) as [[a|e] t]; intros H.
  - now exists a, t.
  - discriminate H.
Qed.

Lemma bind_step {E A B} (c : Eff E A) (k : A -> Eff E B) tr a t :
  c tr = (Ok a, t) -> bind c k tr = k a t.
Proof. unfold bind. now intros ->. Qed.

Lemma bind_raise {E A B} (c : Eff E A) (k : A -> Eff E B) tr e t :
  c tr = (Raise e, t) -> bind c k tr = (Raise e, t).
Proof. unfold bind. now intros ->. Qed.

(** ** The parser of the AVD listing *)

Section AvdListFacts.

Variable h : Host.

Lemma AVD_flush_named (current : AVD) :
  Forall AVD_named (if negb (AVD_is_empty current) then [current] else []).
Proof.
  unfold AVD_is_empty.
  destruct (String.eqb (avd_name current) "invalid") eqn:E; simpl.
  - constructor.
  - constructor; [|constructor]. now apply String.eqb_neq.
Qed.

Lemma avd_line_named current raw tr out current' tr' :
  avd_line h current raw tr = (Ok (out, current'), tr') ->
  Forall AVD_named out.
Proof.
  unfold avd_line.
  destruct (PyStr.is_empty (PyStr.strip raw)).
  { intros H; inversion H; constructor. }
  destruct (avd_section_match (PyStr.strip raw)).
  { intros H; inversion H; subst. apply AVD_flush_named. }
  destruct (PyStr.split_once ":" (PyStr.strip raw)) as [[k0 v0]|].
  2:{ intros H; inversion H; constructor. }
  repeat match goal with
         | |- context [if String.eqb ?a ?b then _ else _] =>
             destruct (String.eqb a b)
         end;
    try (intros H; inversion H; constructor).
  - intros H. apply bind_Ok in H. destruct H as (c & t & _ & H).
    inversion H; constructor.
  - destruct (based_on_match (PyStr.strip v0)) as [[a b]|];
      intros H; inversion H; constructor.
Qed.

Lemma avd_loop_named lines :
  forall current tr,
    Forall AVD_named (yielded (fst (avd_loop h current lines tr))).
Proof.
  induction lines as [|raw rest IH]; intros current tr; simpl.
  - apply AVD_flush_named.
  - destruct (avd_line h current raw tr) as [[[out current']|e] t] eqn:E.
    + specialize (IH current' t).
      destruct (avd_loop h current' rest t) as [[ys err] t']. simpl in *.
      apply Forall_app. split; [|exact IH].
      eapply avd_line_named; eassumption.
    + constructor.
Qed.

Lemma get_avds_named tr avds tr' :
  get_avds h tr = (Ok avds, tr') -> Forall AVD_named avds.
Proof.
  unfold get_avds. intros H.
  apply bind_Ok in H. destruct H as (cp & t1 & _ & H).
  apply bind_Ok in H. destruct H as (output & t2 & _ & H).
  pose proof (avd_loop_named output AVD_default t2) as N.
  unfold _parse_avd_list in H.
  destruct (avd_loop h AVD_default output t2) as [[ys err] t3].
  unfold list_of_gen in H. simpl in *.
  destruct err; inversion H; subst. exact N.
Qed.

Lemma find_placeholder_none (avds : list AVD) :
  Forall AVD_named avds ->
  find (fun a => String.eqb (avd_name a) "invalid") avds = None.
Proof.
  induction 1 as [|a l Ha _ IH]; simpl; [reflexivity|].
  apply String.eqb_neq in Ha. now rewrite Ha.
Qed.

(** C10.  Whatever the lines, no record yielded by [_parse_avd_list] is
    named [invalid]; hence no record returned by [get_avds] is, and
    [get_by_name] finds nothing under that name. *)
Theorem avd_parser_never_yields_placeholder (lines : list string) (tr : Trace) :
  Forall (fun a => avd_name a <> "invalid")
         (yielded (fst (_parse_avd_list h lines tr)))
  /\ match fst (get_avds h tr) with
     | Ok avds => Forall (fun a => avd_name a <> "invalid") avds
     | Raise _ => True
     end
  /\ match fst (get_by_name h "invalid" tr) with
     | Ok found => found = None
     | Raise _ => True
     end.
Proof.
  split; [apply (avd_loop_named lines AVD_default tr)|]. split.
  - destruct (get_avds h tr) as [[avds|e] t] eqn:E; simpl; [|exact I].
    eapply get_avds_named; eassumption.
  - unfold get_by_name, bind.
    destruct (get_avds h tr) as [[avds|e] t] eqn:E; simpl; [|exact I].
    apply find_placeholder_none. eapply get_avds_named; eassumption.
Qed.

End AvdListFacts.

(** ** Traces only grow *)

Lemma extends_ret {E A} (a : A) : extends (@ret E A a).
Proof. intros tr r tr' H. inversion H. exists []. now rewrite app_nil_r. Qed.

Lemma extends_raise {E A} (e : Exn) : extends (@raise E A e).
Proof. intros tr r tr' H. inversion H. exists []. now rewrite app_nil_r. Qed.

Lemma extends_lift {E A} (x : Result A) : extends (@lift E A x).
Proof. intros tr r tr' H. inversion H. exists []. now rewrite app_nil_r. Qed.

Lemma extends_emit {E} (ev : E) : extends (emit ev).
Proof. intros tr r tr' H. inversion H. now exists [ev]. Qed.

Lemma extends_bind {E A B} (c : Eff E A) (k : A -> Eff E B) :
  extends c -> (forall a, extends (k a)) -> extends (bind c k).
Proof.
  intros Hc Hk tr r tr' H. unfold bind in H.
  destruct (c tr) as [[a|e] t] eqn:Ec.
  - destruct (Hc _ _ _ Ec) as [e1 ->].
    destruct (Hk a _ _ _ H) as [e2 ->].
    exists (e1 ++ e2). now rewrite app_assoc.
  - inversion H; subst. exact (Hc _ _ _ Ec).
Qed.

Lemma extends_try {E A} (c : Eff E A) (handler : Exn -> option (Eff E A)) :
  extends c ->
  (forall e k, handler e = Some k -> extends k) ->
  extends (try_except c handler).
Proof.
  intros Hc Hh tr r tr' H. unfold try_except in H.
  destruct (c tr) as [[a|e] t] eqn:Ec.
  - inversion H; subst. exact (Hc _ _ _ Ec).
  - destruct (Hc _ _ _ Ec) as [e1 ->].
    destruct (handler e) as [k|] eqn:Eh.
    + destruct (Hh _ _ Eh _ _ _ H) as [e2 ->].
      exists (e1 ++ e2). now rewrite app_assoc.
    + inversion H; subst. now exists e1.
Qed.

Lemma commands_run_app (a b : Trace) :
  commands_run (a ++ b) = commands_run a ++ commands_run b.
Proof.
  induction a as [|ev a IH]; simpl; [reflexivity|].
  destruct ev; simpl; now rewrite ?IH.
Qed.

(** ** [_run] *)

Section RunFacts.

Variable h : Host.

Lemma wrap_cmd_shape (cmd : list string) (tr : Trace) :
  exists front t,
    wrap_cmd h cmd tr = (Ok (front ++ cmd), t)
    /\ commands_run t = commands_run tr
    /\ exists ext, t = tr ++ ext.
Proof.
  unfold wrap_cmd.
  destruct (PyStr.startswith (sys_platform h) "win").
  2:{ exists [], tr. repeat split. exists []. now rewrite app_nil_r. }
  destruct cmd as [|exe rest].
  { exists [], tr. repeat split. exists []. now rewrite app_nil_r. }
  unfold bind, is_file.
  match goal with
  | |- context [if ?c then _ else _] => destruct c
  end.
  - exists ["cmd"; "/c"], (tr ++ [EvIsFile exe]). repeat split.
    + now rewrite commands_run_app, app_nil_r.
    + now exists [EvIsFile exe].
  - exists [], (tr ++ [EvIsFile exe]). repeat split.
    + now rewrite commands_run_app, app_nil_r.
    + now exists [EvIsFile exe].
Qed.

Lemma wrap_cmd_trace (cmd : list string) (tr : Trace) :
  (exists c, wrap_cmd h cmd tr = (Ok c, tr))
  \/ (exists c exe, wrap_cmd h cmd tr = (Ok c, tr ++ [EvIsFile exe])).
Proof.
  unfold wrap_cmd.
  destruct (PyStr.startswith (sys_platform h) "win"); [|left; now eexists].
  destruct cmd as [|exe rest]; [left; now eexists|].
  right. unfold bind, is_file.
  match goal with
  | |- context [if ?c then _ else _] => destruct c
  end; now do 2 eexists.
Qed.

Lemma spawn_point_shape (cmd : list string) (tr : Trace) :
  exists front,
    fst (spawn_point h cmd tr) = front ++ cmd
    /\ wrap_cmd h cmd tr
       = (Ok (front ++ cmd),
          removelast (snd (spawn_point h cmd tr)))
    /\ snd (spawn_point h cmd tr)
       = removelast (snd (spawn_point h cmd tr)) ++ [EvLog DEBUG "$ %s"]
    /\ commands_run (snd (spawn_point h cmd tr)) = commands_run tr.
Proof.
  destruct (wrap_cmd_shape cmd tr) as (front & t & W & C & _).
  exists front. unfold spawn_point. rewrite W. simpl.
  rewrite removelast_last. repeat split.
  now rewrite commands_run_app, C, app_nil_r.
Qed.

Lemma or_empty_Some (b : string) : or_empty (Some b) = b.
Proof. now destruct b. Qed.

(** What [_run] returns, from what the process does. *)
Lemma run_outcome (cmd : list string) (timeout : option Z) (tr : Trace) :
  let c := fst (spawn_point h cmd tr) in
  let t := snd (spawn_point h cmd tr) in
  _run h cmd timeout tr =
  match spawn h t c timeout with
  | Exited rc out err =>
      (Ok (mkCompletedProcess c rc out err),
       if rc =? 0 then t ++ [EvRun c timeout]
       else (t ++ [EvRun c timeout])
            ++ [EvLog DEBUG "Command %r exited %d; returning empty output"])
  | TimedOut => (Raise TimeoutExpired, t ++ [EvRun c timeout])
  | SpawnFailed => (Raise OSError, t ++ [EvRun c timeout])
  end.
Proof.
  destruct (spawn_point_shape cmd tr) as (front & F & W & L & _).
  cbv zeta. rewrite F.
  unfold _run. rewrite (bind_step _ _ _ _ _ W).
  unfold bind at 1. unfold logger, emit. rewrite <- L.
  unfold try_except, subprocess_run.
  destruct (spawn h (snd (spawn_point h cmd tr)) (front ++ cmd) timeout)
    as [rc out err| |]; try reflexivity.
  destruct (rc =? 0) eqn:Z0; [reflexivity|].
  unfold bind, logger, emit, ret. now rewrite !or_empty_Some.
Qed.

Lemma run_commands (cmd : list string) (timeout : option Z) (tr : Trace) r tr' :
  _run h cmd timeout tr = (r, tr') ->
  commands_run tr' = commands_run tr ++ [fst (spawn_point h cmd tr)].
Proof.
  rewrite run_outcome.
  destruct (spawn_point_shape cmd tr) as (front & _ & _ & _ & C).
  destruct (spawn h _ _ timeout) as [rc out err| |]; intros H; inversion H;
    subst; clear H.
  - destruct (rc =? 0); rewrite !commands_run_app, C; simpl;
      now rewrite ?app_nil_r.
  - now rewrite commands_run_app, C.
  - now rewrite commands_run_app, C.
Qed.

Lemma extends_run (cmd : list string) (timeout : option Z) :
  extends (_run h cmd timeout).
Proof.
  intros tr r tr'. rewrite run_outcome.
  destruct (wrap_cmd_shape cmd tr) as (front & t & W & _ & ext & ->).
  unfold spawn_point. rewrite W. simpl.
  destruct (spawn h _ _ timeout) as [rc out err| |]; intros H; inversion H;
    subst; clear H.
  - destruct (rc =? 0); rewrite <- ?app_assoc; eauto.
  - rewrite <- ?app_assoc; eauto.
  - rewrite <- ?app_assoc; eauto.
Qed.

(** C3.  Whatever the command, the timeout and the exit code, when the
    spawned process exits, [_run] raises nothing: it returns the completed
    process with that exit code and the captured output and error bytes. *)
Theorem run_returns_captured_result
    (cmd : list string) (timeout : option Z) (tr : Trace)
    (rc : Z) (out err : string) :
  spawn h (snd (spawn_point h cmd tr)) (fst (spawn_point h cmd tr)) timeout
    = Exited rc out err ->
  exists tr',
    _run h cmd timeout tr
    = (Ok (mkCompletedProcess (fst (spawn_point h cmd tr)) rc out err), tr').
Proof.
  intros S. rewrite run_outcome. cbv zeta. rewrite S. eauto.
Qed.

End RunFacts.

(** ** The device catalog and [create] *)

Section CreateFacts.

Variable h : Host.

Lemma extends_decode_lines (b : string) : extends (decode_lines h b).
Proof.
  unfold decode_lines. destruct (decode_splitlines h b).
  - apply extends_ret.
  - apply extends_raise.
Qed.

Lemma extends_get_devices : extends (get_devices h).
Proof.
  unfold get_devices.
  apply extends_bind; [apply extends_run|]. intros cp.
  apply extends_bind; [apply extends_decode_lines|]. intros ls.
  apply extends_lift.
Qed.

Lemma get_devices_commands (tr : Trace) r tr1 :
  get_devices h tr = (r, tr1) ->
  commands_run tr1
  = commands_run tr ++ [fst (spawn_point h [avdmanager h; "list"; "device"] tr)].
Proof.
  unfold get_devices, bind.
  destruct (_run h [avdmanager h; "list"; "device"] None tr) as [[cp|e] t] eqn:R;
    apply run_commands in R.
  - unfold decode_lines.
    destruct (decode_splitlines h (stdout cp)); unfold ret, raise, lift;
      intros H; inversion H; subst; exact R.
  - intros H; inversion H; subst; exact R.
Qed.

Lemma extends_set_device (self : AVD) (device_str : string) :
  extends (set_device h self device_str).
Proof.
  unfold set_device. apply extends_bind; [apply extends_get_devices|].
  intros ds. apply extends_ret.
Qed.

Lemma extends_assign_device (current : AVD) (value : string) :
  extends (assign_device h current value).
Proof.
  unfold assign_device. apply extends_bind; [apply extends_set_device|].
  intros c1. destruct (first_token value).
  - apply extends_set_device.
  - apply extends_raise.
Qed.

Lemma extends_avd_line (current : AVD) (raw : string) :
  extends (avd_line h current raw).
Proof.
  unfold avd_line.
  repeat match goal with
         | |- extends (ret _) => apply extends_ret
         | |- extends (bind _ _) =>
             apply extends_bind; [apply extends_assign_device | intros ?]
         | |- extends (if ?c then _ else _) => destruct c
         | |- extends (match ?x with _ => _ end) => destruct x
         end.
Qed.

Lemma avd_loop_extends (lines : list string) :
  forall current tr, exists ext,
    snd (avd_loop h current lines tr) = tr ++ ext.
Proof.
  induction lines as [|raw rest IH]; intros current tr; simpl.
  - exists []. now rewrite app_nil_r.
  - destruct (avd_line h current raw tr) as [[[out current']|e] t] eqn:E;
      destruct (extends_avd_line _ _ _ _ _ E) as [e1 ->].
    + destruct (IH current' (tr ++ e1)) as [e2 E2].
      destruct (avd_loop h current' rest (tr ++ e1)) as [[ys err] t'].
      simpl in *. subst. exists (e1 ++ e2). now rewrite app_assoc.
    + now exists e1.
Qed.

Lemma extends_get_avds : extends (get_avds h).
Proof.
  unfold get_avds.
  apply extends_bind; [apply extends_run|]. intros cp.
  apply extends_bind; [apply extends_decode_lines|]. intros output.
  intros tr r tr' H. unfold _parse_avd_list in H.
  destruct (avd_loop_extends output AVD_default tr) as [ext E].
  destruct (avd_loop h AVD_default output tr) as [g t]. simpl in E.
  inversion H; subst. now exists ext.
Qed.

Lemma extends_get_by_name (name : string) : extends (get_by_name h name).
Proof.
  unfold get_by_name. apply extends_bind; [apply extends_get_avds|].
  intros avds. apply extends_ret.
Qed.

Lemma find_unmatched (s : string) (ds : list Device) :
  Forall (fun d => device_id_alias d <> Some s /\ device_name d <> Some s) ds ->
  find (fun d => alias_is s d || name_is s d) ds = None.
Proof.
  induction 1 as [|d l [Ha Hn] _ IH]; simpl; [reflexivity|].
  unfold alias_is, name_is.
  destruct (device_id_alias d) as [a|];
    destruct (device_name d) as [n|]; simpl;
    repeat match goal with
           | |- context [String.eqb ?x ?y] =>
               destruct (String.eqb_spec x y); [subst; congruence|]
           end; simpl; exact IH.
Qed.

(** C5.  When the device is given as a string that is neither the alias
    nor the name of any device of the current catalog, [create] raises
    [ValueError]; at most the listing of the devices has been run, and no
    creation command. *)
Theorem create_unmatched_device_raises
    (name package s : string) (sdcard tag abi skin path : option string)
    (force snapshot silent verbose : bool)
    (tr : Trace) (ds : list Device) (tr1 : Trace) :
  get_devices h tr = (Ok ds, tr1) ->
  Forall (fun d => device_id_alias d <> Some s /\ device_name d <> Some s) ds ->
  exists tr',
    create h name package (RefStr s) sdcard tag abi skin path
           force snapshot silent verbose tr = (Raise ValueError, tr')
    /\ (commands_run tr' = commands_run tr
        \/ commands_run tr'
           = commands_run tr
             ++ [fst (spawn_point h [avdmanager h; "list"; "device"] tr)]).
Proof.
  intros G U. unfold create.
  destruct (silent && verbose).
  - exists tr. split; [reflexivity | now left].
  - exists tr1. split.
    + unfold resolve_device.
      rewrite (bind_raise _ _ tr ValueError tr1); [reflexivity|].
      rewrite (bind_step _ _ _ _ _ G). now rewrite (find_unmatched s ds U).
    + right. eapply get_devices_commands; eassumption.
Qed.

(** C4, as amended.  With the string [pixel] for the device, when the first
    device of the current catalog whose alias or name is [pixel] has id 0
    and no optional flag is set, the first command run after the catalog
    query ends exactly with the arguments [create avd -n demo --package
    <pkg> --device 0]. *)
Theorem create_pixel_command
    (pkg : string) (tr : Trace) (ds : list Device) (tr1 : Trace) (d : Device) :
  get_devices h tr = (Ok ds, tr1) ->
  find (fun d => alias_is "pixel" d || name_is "pixel" d) ds = Some d ->
  device_id d = 0 ->
  exists cmd rest,
    commands_run
      (snd (create h "demo" pkg (RefStr "pixel") None None None None None
                   false false false false tr))
    = commands_run tr1 ++ cmd :: rest
    /\ ends_with cmd (create_tail "demo" pkg "0").
Proof.
  intros G F Z0. unfold create. simpl.
  unfold resolve_device.
  rewrite (bind_step _ _ tr 0 tr1).
  2:{ rewrite (bind_step _ _ _ _ _ G). rewrite F, Z0. reflexivity. }
  unfold create_cmd. simpl.
  change (PyStr.str_of_int 0) with "0".
  set (cmd := avdmanager h :: create_tail "demo" pkg "0").
  change (avdmanager h ::
          ["create"; "avd"; "-n"; "demo"; "--package"; pkg; "--device"; "0"])
    with cmd.
  destruct (spawn_point_shape h cmd tr1) as (front & Fr & _).
  exists (front ++ cmd).
  assert (Tail : ends_with (front ++ cmd) (create_tail "demo" pkg "0")).
  { exists (front ++ [avdmanager h]). unfold cmd. now rewrite <- app_assoc. }
  unfold bind at 1.
  destruct (_run h cmd None tr1) as [[cp|e] t2] eqn:R;
    pose proof (run_commands _ _ _ _ _ _ R) as C; rewrite Fr in C.
  - match goal with
    | |- context [snd (?c t2)] =>
        assert (X : extends c);
        [| destruct (c t2) as [r t3] eqn:K; destruct (X _ _ _ K) as [ext ->]]
    end.
    { apply extends_bind; [apply extends_get_by_name|].
      intros [a|]; [apply extends_ret | apply extends_raise]. }
    exists (commands_run ext). simpl. split; [|exact Tail].
    rewrite commands_run_app, C. now rewrite <- app_assoc.
  - exists []. simpl. split; [|exact Tail]. exact C.
Qed.

End CreateFacts.

(** ** The device field of the AVD listing *)

Section DeviceFieldFacts.

Variable h : Host.

Lemma set_device_Ok (self : AVD) (device_str : string) tr c tr' :
  set_device h self device_str tr = (Ok c, tr') ->
  exists ds,
    get_devices h tr = (Ok ds, tr')
    /\ c = set__device self
             (find (alias_is (PyStr.strip (sub_brackets device_str))) ds).
Proof.
  unfold set_device. intros H.
  apply bind_Ok in H. destruct H as (ds & t & G & H).
  inversion H; subst. now exists ds.
Qed.

Lemma assign_device_Ok (current : AVD) (value : string) tr c tr' :
  assign_device h current value tr = (Ok c, tr') ->
  exists key ds tq,
    device_key value = Some key
    /\ get_devices h tq = (Ok ds, tr')
    /\ _device c = find (alias_is key) ds.
Proof.
  unfold assign_device, device_key. intros H.
  apply bind_Ok in H. destruct H as (c1 & tq & _ & H).
  destruct (first_token value) as [tok|]; [|discriminate H].
  apply set_device_Ok in H. destruct H as (ds & G & ->).
  exists (PyStr.strip (sub_brackets tok)), ds, tq. now repeat split.
Qed.

Lemma is_empty_true (s : string) : PyStr.is_empty s = true -> s = EmptyString.
Proof. now destruct s. Qed.

(** C2, as amended.  A [Device:] line of the AVD listing sets the device to
    the first device of the catalog, as queried last, whose alias is the
    first run of non-blank characters of the field value with its bracketed
    parts removed; the value [pixel (Google Pixel 4)] is looked up as the
    bare alias [pixel] is. *)
Theorem device_field_resolution
    (current : AVD) (raw k0 v0 : string) (tr : Trace)
    (out : list AVD) (c : AVD) (tr' : Trace) :
  avd_section_match (PyStr.strip raw) = false ->
  PyStr.split_once ":" (PyStr.strip raw) = Some (k0, v0) ->
  PyStr.upper (PyStr.strip k0) = "DEVICE" ->
  avd_line h current raw tr = (Ok (out, c), tr') ->
  (exists key ds tq,
      device_key (PyStr.strip v0) = Some key
      /\ get_devices h tq = (Ok ds, tr')
      /\ _device c = find (alias_is key) ds)
  /\ device_key "pixel (Google Pixel 4)" = device_key "pixel".
Proof.
  intros Sec Sp Key H. split; [|reflexivity].
  unfold avd_line in H. rewrite Sec, Sp, Key in H.
  destruct (PyStr.is_empty (PyStr.strip raw)) eqn:Em.
  { apply is_empty_true in Em. rewrite Em in Sp. discriminate Sp. }
  simpl in H.
  apply bind_Ok in H. destruct H as (c' & t & A & H).
  inversion H; subst. eapply assign_device_Ok; eassumption.
Qed.

End DeviceFieldFacts.

(** ** Waiting for the boot *)

Section BootFacts.

Variable h : Host.

Lemma time_lt_later (a b : Q) : (a <= b)%Q -> time_lt b (a + inject_Z 0) = false.
Proof.
  intros L. unfold time_lt.
  assert (Qle_bool (a + inject_Z 0) b = true) as ->; [|reflexivity].
  apply Qle_bool_iff. setoid_replace (a + inject_Z 0)%Q with a; [exact L|].
  unfold inject_Z. ring.
Qed.

(** C6.  With a clock that never runs backwards, and a connected device
    whose product tag is the name of the AVD, [wait_boot_completed] with
    timeout 0 raises [BootTimeoutError] as soon as it has one unit of fuel,
    whatever the remote shell answers: it reads the clock, lists the
    devices, reads the clock again, and never queries the shell. *)
Theorem wait_boot_zero_timeout
    (fuel : nat) (self : AVD) (tr : Trace)
    (infos : list DeviceInfo) (info : DeviceInfo) :
  clock_monotone h ->
  adb_list h (tr ++ [EvTime]) = Ok infos ->
  find (product_is (avd_name self)) infos = Some info ->
  serial info <> EmptyString ->
  wait_boot_completed h (S fuel) self 0 tr
  = (Raise BootTimeoutError, tr ++ [EvTime; EvAdbList; EvTime])
  /\ polls (tr ++ [EvTime; EvAdbList; EvTime]) = polls tr.
Proof.
  intros Mono L F Ser. split.
  - unfold wait_boot_completed, bind, now, client_list. rewrite L, F.
    destruct (serial info) as [|ch rest] eqn:Es; [congruence|]. simpl.
    unfold bind, now.
    rewrite time_lt_later.
    + unfold ret. now rewrite <- !app_assoc.
    + rewrite <- app_assoc. apply Mono.
  - assert (A : forall a b : Trace, polls (a ++ b) = polls a ++ polls b).
    { induction a as [|ev a IH]; intros b; simpl; [reflexivity|].
      destruct ev; simpl; now rewrite ?IH. }
    rewrite A. simpl. now rewrite app_nil_r.
Qed.

End BootFacts.

(** ** [delete] *)

Section DeleteFacts.

Variable h : Host.

(** Whatever the exit code of the deletion command, [delete] returns
    [True] and logs no error: [_run] has already turned the failure into
    a result. *)
Lemma delete_true_whatever_exit (self : AVD) (tr : Trace)
    (rc : Z) (out err : string) :
  let cmd := [avdmanager h; "delete"; "avd"; "-n"; avd_name self] in
  spawn h (snd (spawn_point h cmd tr)) (fst (spawn_point h cmd tr)) None
    = Exited rc out err ->
  fst (delete h self tr) = Ok true
  /\ errors_logged (snd (delete h self tr)) = errors_logged tr.
Proof.
  intros cmd S. unfold delete, try_except, bind.
  fold cmd. rewrite run_outcome. cbv zeta. rewrite S.
  assert (A : forall a b : Trace,
             errors_logged (a ++ b) = errors_logged a ++ errors_logged b).
  { induction a as [|ev a IH]; intros b; simpl; [reflexivity|].
    destruct ev as [| |[]| | | |]; simpl; now rewrite ?IH. }
  assert (E : errors_logged (snd (spawn_point h cmd tr)) = errors_logged tr).
  { unfold spawn_point.
    destruct (wrap_cmd_trace h cmd tr) as [[c W]|(c & exe & W)]; rewrite W;
      simpl; rewrite !A; simpl; now rewrite ?app_nil_r. }
  simpl. split; [reflexivity|].
  destruct (rc =? 0); rewrite !A, E; simpl; now rewrite ?app_nil_r.
Qed.

End DeleteFacts.

(** ** Tool discovery *)

Section LocatorFacts.

Import AndroidSdkUtils.

Variable w : SdkHost.

(** C8.  For a supported tool whose override key [ANDROID_<TOOL>] names an
    existing regular file, [find_android_tool] returns that path, after
    reading the key and testing the file and nothing else: neither the
    [PATH] nor any SDK root is looked at. *)
Theorem override_has_priority
    (tool explicit p : string) (tr : list Probe) :
  supported tool = true ->
  getenv w ("ANDROID_" ++ PyStr.upper tool)%string = Some explicit ->
  explicit <> EmptyString ->
  expanduser w (Path w explicit) = Some p ->
  isfile w p = true ->
  find_android_tool w tool tr
  = (Ok p,
     tr ++ [PGetenv ("ANDROID_" ++ PyStr.upper tool)%string;
            PExpanduser (Path w explicit); PIsFile p;
            PExpanduser (Path w explicit)]).
Proof.
  intros Sup Env Ne Ex File.
  unfold find_android_tool. rewrite Sup. cbv [negb].
  unfold bind, os_getenv. cbv beta. rewrite Env.
  unfold truthy. destruct explicit as [|ch rest]; [congruence|].
  cbv [PyStr.is_empty]. cbv beta iota.
  unfold do_expanduser, is_file. rewrite Ex, File.
  now rewrite <- !app_assoc.
Qed.

(** C9.  For a tool name other than [adb], [emulator] and [avdmanager],
    [find_android_tool] raises [ValueError] and the trace of probes is
    left as it was: nothing of the environment or of the file system has
    been looked at. *)
Theorem unsupported_tool_fails_fast (tool : string) (tr : list Probe) :
  tool <> "adb" -> tool <> "emulator" -> tool <> "avdmanager" ->
  find_android_tool w tool tr = (Raise ValueError, tr).
Proof.
  intros A B C. unfold find_android_tool, supported.
  apply String.eqb_neq in A, B, C. now rewrite A, B, C.
Qed.

End LocatorFacts.

(** ** The claims on concrete hosts *)

(** The listing parsers on the listings of the test suite. *)
Example parse_test_devices :
  map device_id_alias (yielded (Device_parse 4300 device_listing))
  = [Some "pixel"; Some "Nexus_5X"].
Proof. reflexivity. Qed.

(** A section with fields but no identifier line is dropped. *)
Example section_without_id_dropped :
  yielded (Device_parse 4300 ["---------"; "Name: Pixel 4"; "OEM : Google"])
  = []
  /\ yielded (Target_parse 4300 ["----------"; "Name: Android 14";
                                 "API level: 34"]) = [].
Proof. split; reflexivity. Qed.

(** A section named [invalid] is dropped with its other fields. *)
Example section_named_invalid_dropped :
  yielded (fst (_parse_avd_list (listing_host device_listing [] 0)
                  ["Name: invalid"; "Path: /home/u/.android/avd/invalid.avd";
                   "Skin: pixel_4"] []))
  = [].
Proof. reflexivity. Qed.

Lemma run_returns_captured_result_witness :
  exists tr',
    _run (listing_host [] [] 1) ["/sdk/bin/avdmanager"; "delete"; "avd"] None []
    = (Ok (mkCompletedProcess ["/sdk/bin/avdmanager"; "delete"; "avd"]
             1 EmptyString "failed"), tr').
Proof.
  apply (run_returns_captured_result (listing_host [] [] 1)
           ["/sdk/bin/avdmanager"; "delete"; "avd"] None [] 1
           EmptyString "failed").
  reflexivity.
Defined.

(** C1, on a host whose [avdmanager delete] exits with code 1: [delete]
    returns [True] and logs no error, where the claim has it log the
    failure and return [False]. *)
Theorem delete_reports_success_on_failed_exit :
  spawn (listing_host [] [] 1) [EvLog DEBUG "$ %s"]
        ["/sdk/bin/avdmanager"; "delete"; "avd"; "-n"; "demo"] None
  = Exited 1 EmptyString "failed"
  /\ delete (listing_host [] [] 1) (AVD_of_name "demo") []
     = (Ok true,
        [EvLog DEBUG "$ %s";
         EvRun ["/sdk/bin/avdmanager"; "delete"; "avd"; "-n"; "demo"] None;
         EvLog DEBUG "Command %r exited %d; returning empty output"])
  /\ errors_logged
       (snd (delete (listing_host [] [] 1) (AVD_of_name "demo") [])) = [].
Proof. repeat split. Qed.

Lemma create_unmatched_device_raises_witness :
  exists tr',
    create (listing_host device_listing [] 0) "bad" "pkg"
           (RefStr "does-not-exist") None None None None None
           false false false false [] = (Raise ValueError, tr')
    /\ (commands_run tr' = commands_run []
        \/ commands_run tr'
           = commands_run []
             ++ [fst (spawn_point (listing_host device_listing [] 0)
                        ["/sdk/bin/avdmanager"; "list"; "device"] [])]).
Proof.
  eapply (create_unmatched_device_raises (listing_host device_listing [] 0)
            "bad" "pkg" "does-not-exist" None None None None None
            false false false false []).
  - reflexivity.
  - repeat constructor; discriminate.
Defined.

(** C4 fails when an earlier device of the catalog is named [pixel]: the
    catalog holds the device of id 0 and alias [pixel], the creation
    command ends with [--device 3], and no command that is run ends with
    the arguments of the claim. *)
Lemma create_pixel_takes_first_match :
  fst (get_devices (listing_host custom_device_listing [] 0) [])
  = Ok [mkDevice 3 (Some "my_phone") (Some "pixel") (Some "User") EmptyString;
        mkDevice 0 (Some "pixel") (Some "Pixel 4") (Some "Google") EmptyString]
  /\ commands_run
       (snd (create (listing_host custom_device_listing [] 0) "demo" "<pkg>"
               (RefStr "pixel") None None None None None
               false false false false []))
     = [ ["/sdk/bin/avdmanager"; "list"; "device"];
         "/sdk/bin/avdmanager" :: create_tail "demo" "<pkg>" "3";
         ["/sdk/bin/avdmanager"; "list"; "avd"] ]
  /\ Forall (fun cmd => ~ ends_with cmd (create_tail "demo" "<pkg>" "0"))
       (commands_run
          (snd (create (listing_host custom_device_listing [] 0) "demo" "<pkg>"
                  (RefStr "pixel") None None None None None
                  false false false false []))).
Proof.
  split; [reflexivity|]. split; [reflexivity|].
  repeat constructor; intros [front E];
    apply (f_equal (@rev string)) in E; rewrite rev_app_distr in E;
    simpl in E; discriminate E.
Qed.

Lemma create_pixel_command_witness :
  exists cmd rest,
    commands_run
      (snd (create (listing_host device_listing [] 0) "demo" "<pkg>"
              (RefStr "pixel") None None None None None
              false false false false []))
    = commands_run [EvLog DEBUG "$ %s";
                    EvRun ["/sdk/bin/avdmanager"; "list"; "device"] None]
      ++ cmd :: rest
    /\ ends_with cmd (create_tail "demo" "<pkg>" "0").
Proof.
  eapply (create_pixel_command (listing_host device_listing [] 0) "<pkg>" []
            _ _ (mkDevice 0 (Some "pixel") (Some "Pixel 4") (Some "Google")
                   "google")).
  - reflexivity.
  - reflexivity.
  - reflexivity.
Defined.

(** C2 fails for an alias of two words: the catalog holds the alias
    [Nexus 5], the text before the annotation of [Nexus 5 (Google)] is that
    alias and is found in the catalog, and the parsed record has no
    device. *)
Lemma device_field_two_word_alias :
  fst (get_devices (listing_host nexus_device_listing [] 0) [])
  = Ok [mkDevice 7 (Some "Nexus 5") (Some "Nexus 5") (Some "Google")
          EmptyString]
  /\ PyStr.strip (sub_brackets "Nexus 5 (Google)") = "Nexus 5"
  /\ find (alias_is "Nexus 5")
          [mkDevice 7 (Some "Nexus 5") (Some "Nexus 5") (Some "Google")
             EmptyString]
     = Some (mkDevice 7 (Some "Nexus 5") (Some "Nexus 5") (Some "Google")
               EmptyString)
  /\ map _device
       (yielded (fst (_parse_avd_list (listing_host nexus_device_listing [] 0)
                        nexus_avd_listing [])))
     = [None].
Proof. repeat split. Qed.

Lemma device_field_resolution_witness :
  (exists key ds tq,
      device_key (PyStr.strip " pixel (Google Pixel 4)") = Some key
      /\ get_devices (listing_host device_listing [] 0) tq
         = (Ok ds,
            snd (avd_line (listing_host device_listing [] 0) AVD_default
                   "Device: pixel (Google Pixel 4)" []))
      /\ _device
           (set__device AVD_default
              (Some (mkDevice 0 (Some "pixel") (Some "Pixel 4") (Some "Google")
                       "google")))
         = find (alias_is key) ds)
  /\ device_key "pixel (Google Pixel 4)" = device_key "pixel".
Proof.
  eapply (device_field_resolution (listing_host device_listing [] 0)
            AVD_default "Device: pixel (Google Pixel 4)" "Device"
            " pixel (Google Pixel 4)" [] []).
  - reflexivity.
  - reflexivity.
  - reflexivity.
  - reflexivity.
Defined.

Lemma listing_host_clock_monotone (devices avds : list string) (rc : Z) :
  clock_monotone (listing_host devices avds rc).
Proof.
  intros tr ext. simpl. rewrite <- Zle_Qle, length_app. lia.
Defined.

Lemma wait_boot_zero_timeout_witness :
  wait_boot_completed (listing_host [] [] 0) 1 (AVD_of_name "Pixel_4_API_34")
    0 []
  = (Raise BootTimeoutError, [] ++ [EvTime; EvAdbList; EvTime])
  /\ polls ([] ++ [EvTime; EvAdbList; EvTime]) = polls [].
Proof.
  apply (wait_boot_zero_timeout (listing_host [] [] 0) 0
           (AVD_of_name "Pixel_4_API_34") []
           [mkDeviceInfo "emulator-5554" [("product", "Pixel_4_API_34")]]
           (mkDeviceInfo "emulator-5554" [("product", "Pixel_4_API_34")])).
  - apply listing_host_clock_monotone.
  - reflexivity.
  - reflexivity.
  - discriminate.
Defined.

Lemma override_has_priority_witness :
  AndroidSdkUtils.find_android_tool override_host "adb" []
  = (Ok "/opt/tools/adb",
     [] ++ [AndroidSdkUtils.PGetenv "ANDROID_ADB";
            AndroidSdkUtils.PExpanduser "/opt/tools/adb";
            AndroidSdkUtils.PIsFile "/opt/tools/adb";
            AndroidSdkUtils.PExpanduser "/opt/tools/adb"]).
Proof.
  apply (override_has_priority override_host "adb" "/opt/tools/adb"
           "/opt/tools/adb" []).
  - reflexivity.
  - reflexivity.
  - discriminate.
  - reflexivity.
  - reflexivity.
Defined.

Lemma unsupported_tool_fails_fast_witness :
  AndroidSdkUtils.find_android_tool override_host "zipalign" []
  = (Raise ValueError, []).
Proof.
  apply (unsupported_tool_fails_fast override_host "zipalign" []);
    discriminate.
Defined.

(** * Further properties *)

(** ** Characters and digits *)

Ltac by_bits c := destruct c as [[] [] [] [] [] [] [] []]; try discriminate.

Lemma isdigit_not_blank (c : ascii) :
  PyStr.isdigit c = true -> PyStr.int_isspace c = false.
Proof. by_bits c; reflexivity. Qed.

Lemma isdigit_value (c : ascii) :
  PyStr.isdigit c = true -> 0 <= PyStr.digit_value c.
Proof. by_bits c; intros _; vm_compute; discriminate. Qed.

Lemma isdigit_unsigned (c : ascii) (r : string) :
  PyStr.isdigit c = true ->
  match String c r with
  | String "-" r' => (true, r')
  | String "+" r' => (false, r')
  | _ => (false, String c r)
  end = (false, String c r).
Proof. by_bits c; reflexivity. Qed.

Lemma span_all (f : ascii -> bool) (s : string) :
  all_chars f (fst (PyStr.span f s)) = true.
Proof.
  induction s as [|c r IH]; simpl; [reflexivity|].
  destruct (f c) eqn:E; [|reflexivity].
  destruct (PyStr.span f r) as [a b]. simpl in *. now rewrite E, IH.
Qed.

Lemma lstrip_by_head (f : ascii -> bool) (c : ascii) (r : string) :
  f c = false -> PyStr.lstrip_by f (String c r) = String c r.
Proof. simpl. now intros ->. Qed.

Lemma rstrip_by_none (f : ascii -> bool) (s : string) :
  all_chars (fun c => negb (f c)) s = true -> PyStr.rstrip_by f s = s.
Proof.
  induction s as [|c r IH]; simpl; [reflexivity|].
  intros H. apply andb_true_iff in H. destruct H as [Hc Hr].
  rewrite (IH Hr). apply negb_true_iff in Hc. now rewrite Hc.
Qed.

Lemma all_chars_weaken (f g : ascii -> bool) (s : string) :
  (forall c, f c = true -> g c = true) ->
  all_chars f s = true -> all_chars g s = true.
Proof.
  intros W. induction s as [|c r IH]; simpl; [reflexivity|].
  intros H. apply andb_true_iff in H. destruct H as [Hc Hr].
  now rewrite (W c Hc), (IH Hr).
Qed.

Lemma int_digits_nonneg (s : string) :
  forall acc n b v m,
    0 <= acc -> PyStr.int_digits acc n b s = Some (v, m) -> 0 <= v.
Proof.
  induction s as [|c r IH]; intros acc n b v m A H;
    cbn [PyStr.int_digits] in H.
  - destruct b; inversion H; subst; exact A.
  - destruct (PyStr.isdigit c) eqn:D.
    + apply IH in H; [exact H|]. pose proof (isdigit_value c D) as V. lia.
    + destruct (Ascii.eqb c "_"); [|discriminate H].
      destruct b; [|discriminate H]. now apply IH in H.
Qed.


(** The text [int] reads when given a run of digits. *)
Lemma int_body_of_digits (ds : string) :
  all_chars PyStr.isdigit ds = true ->
  PyStr.rstrip_by PyStr.int_isspace (PyStr.lstrip_by PyStr.int_isspace ds) = ds.
Proof.
  intros D.
  assert (R : PyStr.rstrip_by PyStr.int_isspace ds = ds).
  { apply rstrip_by_none. eapply all_chars_weaken; [|exact D].
    intros c Hc. now rewrite (isdigit_not_blank c Hc). }
  destruct ds as [|c r]; [reflexivity|].
  simpl in D. apply andb_true_iff in D. destruct D as [Dc _].
  rewrite lstrip_by_head; [exact R | now apply isdigit_not_blank].
Qed.

Lemma int_of_digits_nonneg (limit : nat) (ds : string) (v : Z) :
  all_chars PyStr.isdigit ds = true -> ds <> EmptyString ->
  PyStr.int limit ds = Some v -> 0 <= v.
Proof.
  intros D N. unfold PyStr.int. rewrite (int_body_of_digits ds D).
  destruct ds as [|c r]; [congruence|].
  pose proof D as D'. simpl in D'. apply andb_true_iff in D'.
  destruct D' as [Dc _]. rewrite (isdigit_unsigned c r Dc).
  destruct (PyStr.int_digits 0 0 false (String c r)) as [[x n]|] eqn:E;
    [|discriminate].
  apply int_digits_nonneg in E; [|lia].
  destruct (negb (limit =? 0)%nat && (limit <? n)%nat); [discriminate|].
  intros H; inversion H; subst; exact E.
Qed.


(** What the identifier pattern captures: digits, and a non-empty alias. *)
Lemma id_re_match_groups (line digits alias : string) :
  id_re_match line = Some (digits, alias) ->
  all_chars PyStr.isdigit digits = true
  /\ digits <> EmptyString /\ alias <> EmptyString.
Proof.
  unfold id_re_match.
  destruct (PyStr.strip_prefix "id: " line) as [r1|]; [|discriminate].
  pose proof (span_all PyStr.isdigit r1) as A.
  destruct (PyStr.span PyStr.isdigit r1) as [ds r2]. simpl in A.
  destruct (PyStr.is_empty ds) eqn:E1; [discriminate|].
  destruct (PyStr.strip_prefix _ r2) as [r3|]; [|discriminate].
  destruct (PyStr.span _ r3) as [al r4].
  destruct (PyStr.is_empty al) eqn:E2; [discriminate|].
  destruct r4 as [|c r5]; [discriminate|].
  destruct (Ascii.eqb c dquote); [|discriminate].
  intros H; inversion H; subst. repeat split; trivial.
  - intros ->; discriminate E1.
  - intros ->; discriminate E2.
Qed.

(** ** More on the parsers of targets and devices *)

Section ParserMore.

Variable limit : nat.

Ltac inv_ok H := inversion H; subst; clear H.

Lemma Device_flush_identified (cur : option Device) :
  (forall c, cur = Some c -> device_id c = -1 \/ Device_identified c) ->
  Forall Device_identified
    match cur with
    | Some c => if negb (Device_is_empty c) then [c] else []
    | None => []
    end.
Proof.
  intros I. destruct cur as [c|]; [|constructor].
  unfold Device_is_empty. destruct (device_id c =? -1) eqn:E; simpl;
    [constructor|].
  apply Z.eqb_neq in E. destruct (I c eq_refl) as [N|Ok']; [congruence|].
  constructor; [exact Ok' | constructor].
Qed.

Lemma Device_line_identified cur raw out cur' :
  (forall c, cur = Some c -> device_id c = -1 \/ Device_identified c) ->
  Device_line limit cur raw = Ok (out, cur') ->
  Forall Device_identified out
  /\ (forall c, cur' = Some c -> device_id c = -1 \/ Device_identified c).
Proof.
  intros I. unfold Device_line.
  destruct (PyStr.is_empty (PyStr.strip raw)).
  { intros H; inv_ok H. split; [constructor | exact I]. }
  destruct (PyStr.startswith (PyStr.strip raw) "---------").
  { intros H; inv_ok H. split; [now apply Device_flush_identified|].
    intros c E; inv_ok E. now left. }
  assert (I0 : device_id match cur with Some c => c | None => Device_default end = -1
               \/ Device_identified
                    match cur with Some c => c | None => Device_default end).
  { destruct cur as [c|]; [now apply I | now left]. }
  set (c0 := match cur with Some c => c | None => Device_default end) in *.
  destruct (id_re_match (PyStr.strip raw)) as [[digits alias]|] eqn:Id.
  { apply id_re_match_groups in Id. destruct Id as (D & Nd & Na).
    destruct (PyStr.int limit digits) as [n|] eqn:En; [|discriminate].
    intros H; inv_ok H. split; [constructor|].
    intros c E; inv_ok E. right. split; simpl.
    - eapply int_of_digits_nonneg; eassumption.
    - now exists alias. }
  destruct (PyStr.split_once ":" (PyStr.strip raw)) as [[k0 v0]|].
  2:{ intros H; inv_ok H. split; [constructor|]. intros c E; now inv_ok E. }
  repeat match goal with
         | |- context [if String.eqb ?a ?b then _ else _] =>
             destruct (String.eqb a b)
         end;
    intros H; inv_ok H; (split; [constructor|]); intros c E; inv_ok E;
    exact I0.
Qed.

Lemma Device_loop_identified lines :
  forall cur,
    (forall c, cur = Some c -> device_id c = -1 \/ Device_identified c) ->
    Forall Device_identified (yielded (Device_loop limit cur lines)).
Proof.
  induction lines as [|raw rest IH]; intros cur I; simpl.
  - now apply Device_flush_identified.
  - destruct (Device_line limit cur raw) as [[out cur']|e] eqn:E;
      [|constructor].
    destruct (Device_line_identified _ _ _ _ I E) as [O I'].
    specialize (IH cur' I').
    destruct (Device_loop limit cur' rest) as [ys err]. simpl in *.
    apply Forall_app. now split.
Qed.

Lemma Target_flush_identified (cur : option Target) :
  (forall c, cur = Some c -> target_id c = -1 \/ Target_identified c) ->
  Forall Target_identified
    match cur with
    | Some c => if negb (Target_is_empty c) then [c] else []
    | None => []
    end.
Proof.
  intros I. destruct cur as [c|]; [|constructor].
  unfold Target_is_empty. destruct (target_id c =? -1) eqn:E; simpl;
    [constructor|].
  apply Z.eqb_neq in E. destruct (I c eq_refl) as [N|Ok']; [congruence|].
  constructor; [exact Ok' | constructor].
Qed.

Lemma Target_line_identified cur raw out cur' :
  (forall c, cur = Some c -> target_id c = -1 \/ Target_identified c) ->
  Target_line limit cur raw = Ok (out, cur') ->
  Forall Target_identified out
  /\ (forall c, cur' = Some c -> target_id c = -1 \/ Target_identified c).
Proof.
  intros I. unfold Target_line.
  destruct (PyStr.is_empty (PyStr.strip raw)).
  { intros H; inv_ok H. split; [constructor | exact I]. }
  destruct (PyStr.startswith (PyStr.strip raw) "----------").
  { intros H; inv_ok H. split; [now apply Target_flush_identified|].
    intros c E; inv_ok E. now left. }
  assert (I0 : target_id match cur with Some c => c | None => Target_default end = -1
               \/ Target_identified
                    match cur with Some c => c | None => Target_default end).
  { destruct cur as [c|]; [now apply I | now left]. }
  set (c0 := match cur with Some c => c | None => Target_default end) in *.
  destruct (id_re_match (PyStr.strip raw)) as [[digits alias]|] eqn:Id.
  { apply id_re_match_groups in Id. destruct Id as (D & Nd & Na).
    destruct (PyStr.int limit digits) as [n|] eqn:En; [|discriminate].
    intros H; inv_ok H. split; [constructor|].
    intros c E; inv_ok E. right. split; simpl.
    - eapply int_of_digits_nonneg; eassumption.
    - now exists alias. }
  destruct (PyStr.split_once ":" (PyStr.strip raw)) as [[k0 v0]|].
  2:{ intros H; inv_ok H. split; [constructor|]. intros c E; now inv_ok E. }
  repeat match goal with
         | |- context [if String.eqb ?a ?b then _ else _] =>
             destruct (String.eqb a b)
         | |- context [match PyStr.int ?l ?v with _ => _ end] =>
             destruct (PyStr.int l v)
         end;
    intros H; try discriminate H; inv_ok H; (split; [constructor|]);
    intros c E; inv_ok E; exact I0.
Qed.

Lemma Target_loop_identified lines :
  forall cur,
    (forall c, cur = Some c -> target_id c = -1 \/ Target_identified c) ->
    Forall Target_identified (yielded (Target_loop limit cur lines)).
Proof.
  induction lines as [|raw rest IH]; intros cur I; simpl.
  - now apply Target_flush_identified.
  - destruct (Target_line limit cur raw) as [[out cur']|e] eqn:E;
      [|constructor].
    destruct (Target_line_identified _ _ _ _ I E) as [O I'].
    specialize (IH cur' I').
    destruct (Target_loop limit cur' rest) as [ys err]. simpl in *.
    apply Forall_app. now split.
Qed.

(** X1.  Every record yielded by [Target._parse] or [Device._parse] has a
    non-negative id and a non-empty alias: both come from an identifier
    line, and no other line changes them. *)
Theorem parsed_records_identified (lines : list string) :
  Forall Target_identified (yielded (Target_parse limit lines))
  /\ Forall Device_identified (yielded (Device_parse limit lines)).
Proof.
  split.
  - apply Target_loop_identified. intros c E; discriminate E.
  - apply Device_loop_identified. intros c E; discriminate E.
Qed.

End ParserMore.

Section ParserSections.

Variable limit : nat.

Ltac inv_ok H := inversion H; subst; clear H.



(** A parser that has seen nothing and one that has just opened a section
    go on alike. *)
Lemma Device_loop_fresh lines :
  Device_loop limit None lines = Device_loop limit (Some Device_default) lines.
Proof.
  induction lines as [|raw rest IH]; simpl; [reflexivity|].
  unfold Device_line.
  destruct (PyStr.is_empty (PyStr.strip raw)); [now rewrite IH|].
  reflexivity.
Qed.

Lemma Target_loop_fresh lines :
  Target_loop limit None lines = Target_loop limit (Some Target_default) lines.
Proof.
  induction lines as [|raw rest IH]; simpl; [reflexivity|].
  unfold Target_line.
  destruct (PyStr.is_empty (PyStr.strip raw)); [now rewrite IH|].
  reflexivity.
Qed.

Lemma prefix_nonempty (p s : string) :
  p <> EmptyString -> String.prefix p s = true -> PyStr.is_empty s = false.
Proof. destruct p; [congruence|]. destruct s; [discriminate | reflexivity]. Qed.

Lemma Device_loop_sections (l1 l2 : list string) (dash : string) :
  PyStr.startswith (PyStr.strip dash) "---------" = true ->
  forall cur,
    failure (Device_loop limit cur l1) = None ->
    Device_loop limit cur (l1 ++ dash :: l2)
    = (yielded (Device_loop limit cur l1)
         ++ yielded (Device_loop limit None l2),
       failure (Device_loop limit None l2)).
Proof.
  intros Dash.
  assert (Ne : PyStr.is_empty (PyStr.strip dash) = false).
  { eapply prefix_nonempty; [|exact Dash]. discriminate. }
  induction l1 as [|raw rest IH]; intros cur F.
  - cbn [app Device_loop]. unfold Device_line. rewrite Ne, Dash.
    rewrite Device_loop_fresh.
    destruct (Device_loop limit (Some Device_default) l2) as [ys err].
    reflexivity.
  - cbn [app Device_loop] in *.
    destruct (Device_line limit cur raw) as [[out cur']|e]; [|discriminate F].
    specialize (IH cur').
    destruct (Device_loop limit cur' rest) as [ys err]. simpl in F.
    rewrite (IH F). simpl. now rewrite app_assoc.
Qed.

Lemma Target_loop_sections (l1 l2 : list string) (dash : string) :
  PyStr.startswith (PyStr.strip dash) "----------" = true ->
  forall cur,
    failure (Target_loop limit cur l1) = None ->
    Target_loop limit cur (l1 ++ dash :: l2)
    = (yielded (Target_loop limit cur l1)
         ++ yielded (Target_loop limit None l2),
       failure (Target_loop limit None l2)).
Proof.
  intros Dash.
  assert (Ne : PyStr.is_empty (PyStr.strip dash) = false).
  { eapply prefix_nonempty; [|exact Dash]. discriminate. }
  induction l1 as [|raw rest IH]; intros cur F.
  - cbn [app Target_loop]. unfold Target_line. rewrite Ne, Dash.
    rewrite Target_loop_fresh.
    destruct (Target_loop limit (Some Target_default) l2) as [ys err].
    reflexivity.
  - cbn [app Target_loop] in *.
    destruct (Target_line limit cur raw) as [[out cur']|e]; [|discriminate F].
    specialize (IH cur').
    destruct (Target_loop limit cur' rest) as [ys err]. simpl in F.
    rewrite (IH F). simpl. now rewrite app_assoc.
Qed.

(** X3.  Sections of a device listing are parsed independently and in
    order: when the lines before a delimiter line parse without error, the
    records of the whole listing are those of the lines before it followed
    by those of the lines after it. *)
Theorem Device_parse_sections (l1 l2 : list string) (dash : string) :
  PyStr.startswith (PyStr.strip dash) "---------" = true ->
  failure (Device_parse limit l1) = None ->
  Device_parse limit (l1 ++ dash :: l2)
  = (yielded (Device_parse limit l1) ++ yielded (Device_parse limit l2),
     failure (Device_parse limit l2)).
Proof. intros D F. now apply Device_loop_sections. Qed.

(** X4.  The same for a target listing, whose delimiter is a line of ten
    dashes or more: an error of [int] after the delimiter leaves the
    records before it as they are. *)
Theorem Target_parse_sections (l1 l2 : list string) (dash : string) :
  PyStr.startswith (PyStr.strip dash) "----------" = true ->
  failure (Target_parse limit l1) = None ->
  Target_parse limit (l1 ++ dash :: l2)
  = (yielded (Target_parse limit l1) ++ yielded (Target_parse limit l2),
     failure (Target_parse limit l2)).
Proof. intros D F. now apply Target_loop_sections. Qed.

Lemma Device_line_ignored cur raw :
  Device_ignores raw = true ->
  Device_line limit cur raw = Ok ([], cur)
  \/ (cur = None /\ Device_line limit cur raw = Ok ([], Some Device_default)).
Proof.
  unfold Device_ignores, Device_line.
  destruct (PyStr.is_empty (PyStr.strip raw)); [now left|]. simpl.
  destruct (PyStr.startswith (PyStr.strip raw) "---------"); [discriminate|].
  simpl.
  destruct (id_re_match (PyStr.strip raw)); [discriminate|].
  destruct (PyStr.split_once ":" (PyStr.strip raw)) as [[k0 v0]|].
  - repeat match goal with
           | |- context [String.eqb ?a ?b] => destruct (String.eqb a b)
           end; simpl; try discriminate; intros _;
      destruct cur; [now left | right; now split].
  - intros _. destruct cur; [now left | right; now split].
Qed.

Lemma Target_line_ignored cur raw :
  Target_ignores raw = true ->
  Target_line limit cur raw = Ok ([], cur)
  \/ (cur = None /\ Target_line limit cur raw = Ok ([], Some Target_default)).
Proof.
  unfold Target_ignores, Target_line.
  destruct (PyStr.is_empty (PyStr.strip raw)); [now left|]. simpl.
  destruct (PyStr.startswith (PyStr.strip raw) "----------"); [discriminate|].
  simpl.
  destruct (id_re_match (PyStr.strip raw)); [discriminate|].
  destruct (PyStr.split_once ":" (PyStr.strip raw)) as [[k0 v0]|].
  - repeat match goal with
           | |- context [String.eqb ?a ?b] => destruct (String.eqb a b)
           end; simpl; try discriminate; intros _;
      destruct cur; [now left | right; now split].
  - intros _. destruct cur; [now left | right; now split].
Qed.

(** X5.  Blank lines, lines without a colon and fields outside the mapping
    change nothing for [Target._parse]: a listing parses the same with
    such a line as without it. *)
Theorem Target_parse_ignores_line (l1 l2 : list string) (raw : string) :
  Target_ignores raw = true ->
  Target_parse limit (l1 ++ raw :: l2) = Target_parse limit (l1 ++ l2).
Proof.
  intros Ig. unfold Target_parse. generalize (@None Target).
  induction l1 as [|x rest IH]; intros cur; cbn [app Target_loop].
  - destruct (Target_line_ignored cur raw Ig) as [-> | [-> ->]].
    + now destruct (Target_loop limit cur l2).
    + rewrite <- Target_loop_fresh. now destruct (Target_loop limit None l2).
  - destruct (Target_line limit cur x) as [[out cur']|e]; [|reflexivity].
    now rewrite IH.
Qed.

(** X6.  The same for [Device._parse], whose mapping has the fields
    [Name], [OEM] and [Tag]. *)
Theorem Device_parse_ignores_line (l1 l2 : list string) (raw : string) :
  Device_ignores raw = true ->
  Device_parse limit (l1 ++ raw :: l2) = Device_parse limit (l1 ++ l2).
Proof.
  intros Ig. unfold Device_parse. generalize (@None Device).
  induction l1 as [|x rest IH]; intros cur; cbn [app Device_loop].
  - destruct (Device_line_ignored cur raw Ig) as [-> | [-> ->]].
    + now destruct (Device_loop limit cur l2).
    + rewrite <- Device_loop_fresh. now destruct (Device_loop limit None l2).
  - destruct (Device_line limit cur x) as [[out cur']|e]; [|reflexivity].
    now rewrite IH.
Qed.

End ParserSections.

(** ** The cost of the AVD listing *)

Section AvdListCost.

Variable h : Host.




Lemma avd_line_other current raw tr :
  is_device_line raw = false ->
  exists out current', avd_line h current raw tr = (Ok (out, current'), tr).
Proof.
  unfold is_device_line, avd_line.
  destruct (PyStr.is_empty (PyStr.strip raw)); [intros _; now do 2 eexists|].
  destruct (avd_section_match (PyStr.strip raw));
    [intros _; now do 2 eexists|]. simpl.
  destruct (PyStr.split_once ":" (PyStr.strip raw)) as [[k0 v0]|];
    [|intros _; now do 2 eexists].
  intros K. rewrite K.
  repeat match goal with
         | |- context [if String.eqb ?a ?b then _ else _] =>
             destruct (String.eqb a b)
         | |- context [match based_on_match ?v with _ => _ end] =>
             destruct (based_on_match v) as [[? ?]|]
         end; now do 2 eexists.
Qed.


(** X8.  An AVD listing without a [Device:] line is parsed without running
    any command and without error: the trace is left as it was. *)
Theorem avd_listing_without_device (lines : list string) (tr : Trace) :
  filter is_device_line lines = [] ->
  snd (_parse_avd_list h lines tr) = tr
  /\ failure (fst (_parse_avd_list h lines tr)) = None.
Proof.
  unfold _parse_avd_list. generalize AVD_default.
  induction lines as [|raw rest IH]; intros current; simpl.
  - now split.
  - destruct (is_device_line raw) eqn:K; [discriminate|]. intros F.
    destruct (avd_line_other current raw tr K) as (out & current' & E).
    rewrite E. specialize (IH current' F).
    destruct (avd_loop h current' rest tr) as [[ys err] t']. exact IH.
Qed.

End AvdListCost.

(** ** More on [create] *)

Section CreateMore.

Variable h : Host.

(** With [silent] and [verbose] both set, [create] raises [ValueError]
    before anything else: no catalog query, no command. *)
Lemma create_conflicting_verbosity
    (name package : string) (device : DeviceRef)
    (sdcard tag abi skin path : option string) (force snapshot : bool)
    (tr : Trace) :
  create h name package device sdcard tag abi skin path force snapshot
         true true tr
  = (Raise ValueError, tr).
Proof. reflexivity. Qed.

Lemma get_by_name_found (name : string) tr a tr' :
  get_by_name h name tr = (Ok (Some a), tr') ->
  avd_name a = name /\ avd_name a <> "invalid".
Proof.
  unfold get_by_name. intros H.
  apply bind_Ok in H. destruct H as (avds & t & G & H).
  apply get_avds_named in G. inversion H as [F]. clear H.
  apply find_some in F. destruct F as [In E]. apply String.eqb_eq in E.
  split; [exact E|]. rewrite Forall_forall in G. now apply G.
Qed.

(** X10.  When [create] returns, the record it returns has the name that
    was asked for, and that name is not [invalid]: an AVD cannot be
    created under the name of the empty record. *)
Theorem create_returns_named
    (name package : string) (device : DeviceRef)
    (sdcard tag abi skin path : option string)
    (force snapshot silent verbose : bool) (tr : Trace)
    (a : AVD) (tr' : Trace) :
  create h name package device sdcard tag abi skin path force snapshot
         silent verbose tr = (Ok a, tr') ->
  avd_name a = name /\ name <> "invalid".
Proof.
  unfold create. destruct (silent && verbose); [discriminate|].
  intros H.
  apply bind_Ok in H. destruct H as (dev & t1 & _ & H).
  apply bind_Ok in H. destruct H as (cp & t2 & _ & H).
  apply bind_Ok in H. destruct H as (found & t3 & G & H).
  destruct found as [b|]; [|discriminate H].
  inversion H; subst. apply get_by_name_found in G.
  destruct G as [E N]. split; [exact E | now rewrite <- E].
Qed.

(** X11.  With the device given as a number, [create] does not query the
    catalog: the first command it runs is the creation command, whose
    device argument is the decimal text of that number. *)
Theorem create_numeric_device
    (name package : string) (n : Z)
    (sdcard tag abi skin path : option string)
    (force snapshot silent verbose : bool) (tr : Trace) :
  silent && verbose = false ->
  exists cmd rest,
    commands_run
      (snd (create h name package (RefInt n) sdcard tag abi skin path
                   force snapshot silent verbose tr))
    = commands_run tr ++ cmd :: rest
    /\ ends_with cmd
         (create_cmd h name package n sdcard tag abi skin path
                     force snapshot silent verbose)
    /\ In (PyStr.str_of_int n) cmd.
Proof.
  intros SV. unfold create. rewrite SV.
  unfold resolve_device. rewrite (bind_step _ _ tr n tr); [|reflexivity].
  set (c := create_cmd h name package n sdcard tag abi skin path
                       force snapshot silent verbose).
  destruct (spawn_point_shape h c tr) as (front & Fr & _).
  exists (front ++ c).
  assert (Tail : ends_with (front ++ c) c /\ In (PyStr.str_of_int n) (front ++ c)).
  { split; [now exists front|]. apply in_or_app. right.
    unfold c, create_cmd. rewrite !in_app_iff. right. right. left.
    simpl. do 7 right. now left. }
  unfold bind at 1.
  destruct (_run h c None tr) as [[cp|e] t2] eqn:R;
    pose proof (run_commands _ _ _ _ _ _ R) as C; rewrite Fr in C.
  - match goal with
    | |- context [snd (?k t2)] =>
        assert (X : extends k);
        [| destruct (k t2) as [r t3] eqn:K; destruct (X _ _ _ K) as [ext ->]]
    end.
    { apply extends_bind; [apply extends_get_by_name|].
      intros [a|]; [apply extends_ret | apply extends_raise]. }
    exists (commands_run ext). simpl. split; [|exact Tail].
    rewrite commands_run_app, C. now rewrite <- app_assoc.
  - exists []. simpl. split; [exact C | exact Tail].
Qed.

End CreateMore.

(** ** [rename] *)

Section RenameFacts.

Variable h : Host.
Variable dirname : string -> string.
Variable join : string -> string -> string.

(** X12.  Whatever the exit code of the move command, [rename] returns
    [True] and the record takes the new name, its path being rewritten
    when it had one: [_run] has already turned a failed exit into a
    result, so the branch that returns [False] is not reached. *)
Theorem rename_true_whatever_exit
    (self : AVD) (new_name : string) (tr : Trace)
    (rc : Z) (out err : string) :
  spawn h
    (snd (spawn_point h
            [avdmanager h; "move"; "avd"; "-n"; avd_name self; "-r"; new_name]
            tr))
    (fst (spawn_point h
            [avdmanager h; "move"; "avd"; "-n"; avd_name self; "-r"; new_name]
            tr))
    None
  = Exited rc out err ->
  exists self',
    fst (rename h dirname join self new_name tr) = Ok (true, self')
    /\ avd_name self' = new_name
    /\ avd_path self'
       = match avd_path self with
         | Some p =>
             if PyStr.is_empty p then Some p
             else Some (join (dirname p) (new_name ++ ".avd")%string)
         | None => None
         end
    /\ _device self' = _device self
    /\ process self' = process self.
Proof.
  intros S. exists (renamed dirname join self new_name).
  split.
  - unfold rename, try_except, bind. rewrite run_outcome. cbv zeta.
    rewrite S. reflexivity.
  - unfold renamed. destruct (avd_path self) as [p|] eqn:P.
    + destruct (PyStr.is_empty p) eqn:E; simpl; rewrite ?P; now repeat split.
    + simpl. rewrite P. now repeat split.
Qed.

End RenameFacts.

(** ** More on [wait_boot_completed] *)

Section BootMore.

Variable h : Host.

(** X13.  When no connected device has the name of the AVD for product
    tag, [wait_boot_completed] raises [RuntimeError] right after listing
    the devices, whatever the timeout: the shell is never queried. *)
Theorem wait_boot_no_device
    (fuel : nat) (self : AVD) (timeout : Z) (tr : Trace)
    (infos : list DeviceInfo) :
  adb_list h (tr ++ [EvTime]) = Ok infos ->
  find (product_is (avd_name self)) infos = None ->
  wait_boot_completed h fuel self timeout tr
  = (Raise RuntimeError, tr ++ [EvTime; EvAdbList]).
Proof.
  intros L F. unfold wait_boot_completed, bind, now, client_list.
  rewrite L, F. unfold raise. now rewrite <- app_assoc.
Qed.

(** X14.  When the deadline has not passed at the first test and the shell
    answers [1], blanks aside, [wait_boot_completed] returns after that
    one query, without sleeping. *)
Theorem wait_boot_first_poll
    (fuel : nat) (self : AVD) (timeout : Z) (tr : Trace)
    (infos : list DeviceInfo) (info : DeviceInfo) (out : string) :
  adb_list h (tr ++ [EvTime]) = Ok infos ->
  find (product_is (avd_name self)) infos = Some info ->
  serial info <> EmptyString ->
  time_lt (time_time h (tr ++ [EvTime; EvAdbList]))
          (time_time h tr + inject_Z timeout) = true ->
  adb_shell h (tr ++ [EvTime; EvAdbList; EvTime]) (serial info)
            ["getprop"; "sys.boot_completed"] = Ok out ->
  PyStr.strip out = "1" ->
  wait_boot_completed h (S fuel) self timeout tr
  = (Ok (Some tt),
     tr ++ [EvTime; EvAdbList; EvTime;
            EvAdbShell (serial info) ["getprop"; "sys.boot_completed"];
            EvLog INFO "Boot completed for %s"]).
Proof.
  intros L F Ser T Sh One.
  unfold wait_boot_completed, bind, now, client_list. rewrite L, F.
  destruct (serial info) as [|ch rest] eqn:Es; [congruence|].
  cbn [PyStr.is_empty boot_loop]. unfold bind, now.
  rewrite <- !app_assoc. cbn [app]. rewrite T.
  unfold try_except, bind, shell. rewrite <- !app_assoc. cbn [app].
  rewrite Sh, One. cbn. unfold ret. now rewrite <- !app_assoc.
Qed.

Lemma boot_loop_unbooted (fuel : nat) :
  never_booted h ->
  forall s deadline tr, fst (boot_loop h fuel s deadline tr) <> Ok Booted.
Proof.
  intros N. induction fuel as [|n IH]; intros s deadline tr;
    cbn [boot_loop]; [discriminate|].
  unfold bind, now.
  destruct (time_lt (time_time h tr) deadline); [|discriminate].
  unfold try_except, bind, shell.
  destruct (adb_shell h (tr ++ [EvTime]) s ["getprop"; "sys.boot_completed"])
    as [out|e] eqn:Sh.
  - apply N in Sh. apply String.eqb_neq in Sh. rewrite Sh.
    unfold ret, sleep, emit. apply IH.
  - unfold ret, sleep, emit. apply IH.
Qed.

(** X15.  Against a shell that never answers [1], [wait_boot_completed]
    never returns normally, whatever the timeout and however long it
    runs. *)
Theorem wait_boot_needs_boot
    (fuel : nat) (self : AVD) (timeout : Z) (tr : Trace) :
  never_booted h ->
  fst (wait_boot_completed h fuel self timeout tr) <> Ok (Some tt).
Proof.
  intros N. unfold wait_boot_completed, bind, now, client_list.
  destruct (adb_list h (tr ++ [EvTime])) as [infos|e]; [|discriminate].
  destruct (find (product_is (avd_name self)) infos) as [info|];
    [|discriminate].
  destruct (PyStr.is_empty (serial info)); [discriminate|].
  pose proof (boot_loop_unbooted fuel N (serial info)
                (time_time h tr + inject_Z timeout)%Q
                ((tr ++ [EvTime]) ++ [EvAdbList])) as B.
  destruct (boot_loop h fuel (serial info) _ _) as [[[| |]|e] t];
    simpl in *; try discriminate. congruence.
Qed.

Lemma boot_loop_never_raises (fuel : nat) :
  forall s deadline tr, exists p t, boot_loop h fuel s deadline tr = (Ok p, t).
Proof.
  induction fuel as [|n IH]; intros s deadline tr; cbn [boot_loop];
    [now do 2 eexists|].
  unfold bind, now.
  destruct (time_lt (time_time h tr) deadline); [|now do 2 eexists].
  unfold try_except, bind, shell.
  destruct (adb_shell h (tr ++ [EvTime]) s ["getprop"; "sys.boot_completed"])
    as [out|e].
  - destruct (String.eqb (PyStr.strip out) "1"); cbn.
    + now do 2 eexists.
    + apply IH.
  - cbn. apply IH.
Qed.

(** X16.  An error of the remote shell never escapes the polling loop:
    whatever [wait_boot_completed] raises is [RuntimeError],
    [BootTimeoutError], or the error of listing the devices. *)
Theorem wait_boot_raises_only
    (fuel : nat) (self : AVD) (timeout : Z) (tr : Trace) (e : Exn) :
  fst (wait_boot_completed h fuel self timeout tr) = Raise e ->
  e = RuntimeError \/ e = BootTimeoutError
  \/ adb_list h (tr ++ [EvTime]) = Raise e.
Proof.
  unfold wait_boot_completed, bind, now, client_list.
  destruct (adb_list h (tr ++ [EvTime])) as [infos|e0].
  2:{ simpl. intros H; inversion H. now right; right. }
  destruct (find (product_is (avd_name self)) infos) as [info|].
  2:{ simpl. intros H; inversion H. now left. }
  destruct (PyStr.is_empty (serial info)).
  { simpl. intros H; inversion H. now left. }
  destruct (boot_loop_never_raises fuel (serial info)
              (time_time h tr + inject_Z timeout)%Q
              ((tr ++ [EvTime]) ++ [EvAdbList])) as (p & t & B).
  rewrite B. destruct p; simpl; intros H; inversion H. right. now left.
Qed.

End BootMore.

(** ** [start], [stop] and [kill] *)

Section RuntimeFacts.

Variable k : ControlHost.

Lemma spawned_app (a b : list Control) :
  spawned (a ++ b) = spawned a ++ spawned b.
Proof.
  induction a as [|ev a IH]; simpl; [reflexivity|].
  destruct ev; simpl; now rewrite ?IH.
Qed.

(** X17.  A successful [start] spawns one process, whose command begins
    with the emulator, [-avd] and the name of the AVD, and keeps its
    handle; as long as the handle is held, any further [start] raises
    [RuntimeError] without spawning anything. *)
Theorem start_once
    (self : AVD) (detach : bool) (extra : option string)
    (tr : list Control) (p : Z) (self' : AVD) (tr' : list Control) :
  start k self detach extra tr = (Ok (p, self'), tr') ->
  process self' = Some p
  /\ avd_name self' = avd_name self
  /\ (exists more,
        spawned tr'
        = spawned tr ++ [[emulator_tool k; "-avd"; avd_name self] ++ more])
  /\ forall detach2 extra2 tr2,
       start k self' detach2 extra2 tr2 = (Raise RuntimeError, tr2).
Proof.
  unfold start. destruct (process self) as [pid|] eqn:P; [discriminate|].
  intros H.
  apply bind_Ok in H. destruct H as (more & t1 & E1 & H).
  assert (T1 : t1 = tr).
  { destruct extra as [e|]; [|now inversion E1].
    destruct (PyStr.is_empty e); [now inversion E1|].
    destruct (shlex_split k e); now inversion E1. }
  subst t1.
  apply bind_Ok in H. destruct H as ([] & t2 & E2 & H).
  inversion E2; subst; clear E2.
  apply bind_Ok in H. destruct H as (proc & t3 & E3 & H).
  destruct (popen k _ _) as [pid|]; inversion E3; subst; clear E3.
  apply bind_Ok in H. destruct H as ([] & t4 & E4 & H).
  inversion H; subst; clear H.
  split; [reflexivity|]. split; [reflexivity|]. split.
  - exists more.
    destruct detach; inversion E4; subst; rewrite !spawned_app; simpl;
      now rewrite ?app_nil_r.
  - intros detach2 extra2 tr2. reflexivity.
Qed.


(** X19.  [stop] never raises: it returns [True] when the shell command
    [emu kill] went through to the emulator of the given port, and
    [False] with an error logged when it raised. *)
Theorem stop_never_raises (self : AVD) (port : Z) (tr : list Control) :
  exists b tr',
    stop k self port tr = (Ok b, tr')
    /\ (b = true <->
        exists out,
          emu_shell k tr ("emulator-" ++ PyStr.str_of_int port)%string
                    ["emu"; "kill"] = Ok out).
Proof.
  unfold stop, try_except, bind.
  destruct (emu_shell k tr _ ["emu"; "kill"]) as [out|e] eqn:S.
  - do 2 eexists. split; [reflexivity|]. split; [now exists out | reflexivity].
  - do 2 eexists. split; [reflexivity|].
    split; [discriminate | intros [out O]; discriminate O].
Qed.

End RuntimeFacts.

(** ** More on tool discovery *)

Section LocatorMore.

Import AndroidSdkUtils.

Variable w : SdkHost.

Lemma first_file_found (exe : string) (dirs : list string) :
  forall tr p tr',
    first_file w exe dirs tr = (Ok (Some p), tr') ->
    isfile w p = true /\ exists d, In d dirs /\ p = joinpath w d exe.
Proof.
  induction dirs as [|d rest IH]; intros tr p tr'; cbn [first_file].
  - discriminate.
  - unfold bind, is_file. destruct (isfile w (joinpath w d exe)) eqn:F.
    + intros H; inversion H; subst. split; [exact F|].
      exists d. split; [now left | reflexivity].
    + intros H. apply IH in H. destruct H as (Fp & d' & I & E).
      split; [exact Fp|]. exists d'. split; [now right | exact E].
Qed.

(** X20.  A scan of an SDK root that is not deep returns only regular
    files: whatever path [_scan_sdk] returns has passed [is_file], and is
    the name of the tool's executable inside some directory. *)
Theorem scan_sdk_returns_files
    (root tool : string) (tr : list Probe) (p : string) (tr' : list Probe) :
  _scan_sdk w root tool false tr = (Ok (Some p), tr') ->
  isfile w p = true /\ exists d, p = joinpath w d (_windows_name w tool).
Proof.
  unfold _scan_sdk. intros H.
  apply bind_Ok in H. destruct H as (r & t1 & _ & H).
  apply bind_Ok in H. destruct H as (g & t2 & _ & H).
  apply bind_Ok in H. destruct H as (dirs & t3 & _ & H).
  apply bind_Ok in H. destruct H as (hit & t4 & F & H).
  destruct hit as [cand|]; [|discriminate H].
  inversion H; subst. apply first_file_found in F.
  destruct F as (Fp & d & _ & E). split; [exact Fp | now exists d].
Qed.

(** X21.  With the override key unset or empty, a tool found on the
    [PATH] is returned at once: only the key and [which] are looked at,
    and no SDK root is scanned. *)
Theorem path_hit_skips_sdk_roots
    (tool hit : string) (tr : list Probe) :
  supported tool = true ->
  truthy (getenv w ("ANDROID_" ++ PyStr.upper tool)%string) = None ->
  which w tool = Some hit ->
  hit <> EmptyString ->
  find_android_tool w tool tr
  = (Ok (Path w hit),
     tr ++ [PGetenv ("ANDROID_" ++ PyStr.upper tool)%string; PWhich tool]).
Proof.
  intros Sup Env Wh Ne. unfold find_android_tool. rewrite Sup. cbv [negb].
  unfold bind at 1. unfold os_getenv. cbv beta. rewrite Env.
  unfold find_beyond_override, bind, shutil_which. rewrite Wh.
  unfold truthy. destruct hit as [|c r]; [congruence|].
  cbv [PyStr.is_empty]. unfold ret. now rewrite <- app_assoc.
Qed.





End LocatorMore.

(** ** The further properties on concrete hosts *)

Lemma Device_parse_sections_witness :
  Device_parse 4300
    (["---------"; ("id: 0 or " ++ quoted "pixel")%string; "Name: Pixel 4"]
       ++ "---------" :: [("id: 1 or " ++ quoted "Nexus_5X")%string])
  = (yielded (Device_parse 4300
                ["---------"; ("id: 0 or " ++ quoted "pixel")%string;
                 "Name: Pixel 4"])
       ++ yielded (Device_parse 4300
                     [("id: 1 or " ++ quoted "Nexus_5X")%string]),
     failure (Device_parse 4300 [("id: 1 or " ++ quoted "Nexus_5X")%string])).
Proof.
  apply (Device_parse_sections 4300
           ["---------"; ("id: 0 or " ++ quoted "pixel")%string;
            "Name: Pixel 4"]
           [("id: 1 or " ++ quoted "Nexus_5X")%string] "---------");
    reflexivity.
Defined.

Lemma Target_parse_sections_witness :
  Target_parse 4300
    (["----------"; ("id: 1 or " ++ quoted "android-34")%string;
      "API level: 34"]
       ++ "----------" :: [("id: 2 or " ++ quoted "android-33")%string;
                           "API level: 33"])
  = (yielded (Target_parse 4300
                ["----------"; ("id: 1 or " ++ quoted "android-34")%string;
                 "API level: 34"])
       ++ yielded (Target_parse 4300
                     [("id: 2 or " ++ quoted "android-33")%string;
                      "API level: 33"]),
     failure (Target_parse 4300
                [("id: 2 or " ++ quoted "android-33")%string;
                 "API level: 33"])).
Proof.
  apply (Target_parse_sections 4300
           ["----------"; ("id: 1 or " ++ quoted "android-34")%string;
            "API level: 34"]
           [("id: 2 or " ++ quoted "android-33")%string; "API level: 33"]
           "----------");
    reflexivity.
Defined.

Lemma Target_parse_ignores_line_witness :
  Target_parse 4300
    (["----------"; ("id: 1 or " ++ quoted "android-34")%string]
       ++ "Vendor: Google" :: ["API level: 34"])
  = Target_parse 4300
      (["----------"; ("id: 1 or " ++ quoted "android-34")%string]
         ++ ["API level: 34"]).
Proof.
  apply (Target_parse_ignores_line 4300
           ["----------"; ("id: 1 or " ++ quoted "android-34")%string]
           ["API level: 34"] "Vendor: Google").
  reflexivity.
Defined.

Lemma Device_parse_ignores_line_witness :
  Device_parse 4300
    (["---------"; ("id: 0 or " ++ quoted "pixel")%string]
       ++ "Screen: 5.7in" :: ["OEM : Google"])
  = Device_parse 4300
      (["---------"; ("id: 0 or " ++ quoted "pixel")%string]
         ++ ["OEM : Google"]).
Proof.
  apply (Device_parse_ignores_line 4300
           ["---------"; ("id: 0 or " ++ quoted "pixel")%string]
           ["OEM : Google"] "Screen: 5.7in").
  reflexivity.
Defined.


Lemma avd_listing_without_device_witness :
  snd (_parse_avd_list (listing_host device_listing [] 0)
         ["--------"; "Name: Pixel_4_API_34"; "Skin: pixel_4"] [])
  = []
  /\ failure
       (fst (_parse_avd_list (listing_host device_listing [] 0)
               ["--------"; "Name: Pixel_4_API_34"; "Skin: pixel_4"] []))
     = None.
Proof.
  apply (avd_listing_without_device (listing_host device_listing [] 0)
           ["--------"; "Name: Pixel_4_API_34"; "Skin: pixel_4"] []).
  reflexivity.
Defined.

Lemma create_returns_named_witness :
  avd_name (AVD_of_name "demo") = "demo" /\ "demo" <> "invalid".
Proof.
  eapply (create_returns_named (listing_host device_listing ["Name: demo"] 0)
            "demo" "<pkg>" (RefStr "pixel") None None None None None
            false false false false [] (AVD_of_name "demo")).
  reflexivity.
Defined.

Lemma create_numeric_device_witness :
  exists cmd rest,
    commands_run
      (snd (create (listing_host device_listing [] 0) "demo" "<pkg>"
              (RefInt 7) None None None None None false false false true []))
    = commands_run [] ++ cmd :: rest
    /\ ends_with cmd
         (create_cmd (listing_host device_listing [] 0) "demo" "<pkg>" 7
                     None None None None None false false false true)
    /\ In (PyStr.str_of_int 7) cmd.
Proof.
  apply (create_numeric_device (listing_host device_listing [] 0)
           "demo" "<pkg>" 7 None None None None None
           false false false true []).
  reflexivity.
Defined.

Lemma rename_true_whatever_exit_witness :
  exists self',
    fst (rename (listing_host [] [] 1) demo_dirname demo_join
           (mkAVD "old" None (Some "/home/u/.android/avd/old.avd")
                  None None None None None None)
           "new" [])
    = Ok (true, self')
    /\ avd_name self' = "new"
    /\ avd_path self'
       = match avd_path (mkAVD "old" None (Some "/home/u/.android/avd/old.avd")
                               None None None None None None) with
         | Some p =>
             if PyStr.is_empty p then Some p
             else Some (demo_join (demo_dirname p) ("new" ++ ".avd")%string)
         | None => None
         end
    /\ _device self' = None
    /\ process self' = None.
Proof.
  apply (rename_true_whatever_exit (listing_host [] [] 1)
           demo_dirname demo_join
           (mkAVD "old" None (Some "/home/u/.android/avd/old.avd")
                  None None None None None None)
           "new" [] 1 EmptyString "failed").
  reflexivity.
Defined.

Lemma wait_boot_no_device_witness :
  wait_boot_completed (listing_host [] [] 0) 9 (AVD_of_name "Tablet") 180 []
  = (Raise RuntimeError, [] ++ [EvTime; EvAdbList]).
Proof.
  apply (wait_boot_no_device (listing_host [] [] 0) 9 (AVD_of_name "Tablet")
           180 []
           [mkDeviceInfo "emulator-5554" [("product", "Pixel_4_API_34")]]);
    reflexivity.
Defined.

Lemma wait_boot_first_poll_witness :
  wait_boot_completed booted_host 1 (AVD_of_name "Pixel_4_API_34") 5 []
  = (Ok (Some tt),
     [] ++ [EvTime; EvAdbList; EvTime;
            EvAdbShell "emulator-5554" ["getprop"; "sys.boot_completed"];
            EvLog INFO "Boot completed for %s"]).
Proof.
  apply (wait_boot_first_poll booted_host 0 (AVD_of_name "Pixel_4_API_34")
           5 []
           [mkDeviceInfo "emulator-5554" [("product", "Pixel_4_API_34")]]
           (mkDeviceInfo "emulator-5554" [("product", "Pixel_4_API_34")])
           "1").
  - reflexivity.
  - reflexivity.
  - discriminate.
  - reflexivity.
  - reflexivity.
  - reflexivity.
Defined.

Lemma listing_host_never_booted (devices avds : list string) (rc : Z) :
  never_booted (listing_host devices avds rc).
Proof.
  intros tr s argv out H. simpl in H. inversion H. discriminate.
Defined.

Lemma wait_boot_needs_boot_witness :
  fst (wait_boot_completed (listing_host [] [] 0) 50
         (AVD_of_name "Pixel_4_API_34") 100 [])
  <> Ok (Some tt).
Proof.
  apply (wait_boot_needs_boot (listing_host [] [] 0) 50
           (AVD_of_name "Pixel_4_API_34") 100 []).
  apply listing_host_never_booted.
Defined.

Lemma wait_boot_raises_only_witness :
  BootTimeoutError = RuntimeError \/ BootTimeoutError = BootTimeoutError
  \/ adb_list (listing_host [] [] 0) ([] ++ [EvTime]) = Raise BootTimeoutError.
Proof.
  apply (wait_boot_raises_only (listing_host [] [] 0) 1
           (AVD_of_name "Pixel_4_API_34") 0 [] BootTimeoutError).
  reflexivity.
Defined.

Lemma start_once_witness :
  process (set_process (AVD_of_name "demo") (Some 4242)) = Some 4242
  /\ avd_name (set_process (AVD_of_name "demo") (Some 4242))
     = avd_name (AVD_of_name "demo")
  /\ (exists more,
        spawned [CtlLog INFO "Starting emulator (%s)";
                 CtlPopen ["/sdk/emulator"; "-avd"; "demo"; "-no-window"];
                 CtlWait 4242]
        = spawned []
          ++ [[emulator_tool emulator_host; "-avd";
               avd_name (AVD_of_name "demo")] ++ more])
  /\ forall detach2 extra2 tr2,
       start emulator_host (set_process (AVD_of_name "demo") (Some 4242))
             detach2 extra2 tr2
       = (Raise RuntimeError, tr2).
Proof.
  apply (start_once emulator_host (AVD_of_name "demo") false
           (Some "-no-window") [] 4242).
  reflexivity.
Defined.

Lemma scan_sdk_returns_files_witness :
  AndroidSdkUtils.isfile sdk_root_host "/opt/sdk/platform-tools/adb" = true
  /\ exists d,
       "/opt/sdk/platform-tools/adb"
       = AndroidSdkUtils.joinpath sdk_root_host d
           (AndroidSdkUtils._windows_name sdk_root_host "adb").
Proof.
  apply (scan_sdk_returns_files sdk_root_host "/opt/sdk" "adb" []
           "/opt/sdk/platform-tools/adb"
           [AndroidSdkUtils.PExpanduser "/opt/sdk";
            AndroidSdkUtils.PExists "/opt/sdk/cmdline-tools";
            AndroidSdkUtils.PIsFile "/opt/sdk/platform-tools/adb"]).
  reflexivity.
Defined.

Lemma path_hit_skips_sdk_roots_witness :
  AndroidSdkUtils.find_android_tool path_host "adb" []
  = (Ok "/usr/bin/adb",
     [] ++ [AndroidSdkUtils.PGetenv "ANDROID_ADB";
            AndroidSdkUtils.PWhich "adb"]).
Proof.
  apply (path_hit_skips_sdk_roots path_host "adb" "/usr/bin/adb" []).
  - reflexivity.
  - reflexivity.
  - reflexivity.
  - discriminate.
Defined.


(** ** The catalog and the exit code *)



(** ** The key of a plain alias *)

Lemma span_app_stop (f : ascii -> bool) (a : string) (c : ascii) (r : string) :
  all_chars f a = true -> f c = false ->
  PyStr.span f (a ++ String c r) = (a, String c r).
Proof.
  intros A C. induction a as [|x a IH]; simpl.
  - now rewrite C.
  - simpl in A. apply andb_true_iff in A. destruct A as [Ax Aa].
    now rewrite Ax, (IH Aa).
Qed.

Lemma sub_brackets_plain (a : string) :
  all_chars (fun c => negb (is_open c)) a = true -> sub_brackets a = a.
Proof.
  unfold sub_brackets. induction a as [|x a IH]; simpl; [reflexivity|].
  intros A. apply andb_true_iff in A. destruct A as [Ax Aa].
  apply negb_true_iff in Ax. now rewrite Ax, (IH Aa).
Qed.

Lemma strip_plain (a : string) :
  all_chars (fun c => negb (PyStr.isspace c)) a = true -> PyStr.strip a = a.
Proof.
  intros A. unfold PyStr.strip.
  assert (L : PyStr.lstrip_by PyStr.isspace a = a).
  { destruct a as [|x a]; [reflexivity|]. simpl in A.
    apply andb_true_iff in A. destruct A as [Ax _].
    apply negb_true_iff in Ax. now apply lstrip_by_head. }
  rewrite L. now apply rstrip_by_none.
Qed.

(** X23.  For an alias without blanks and without opening brackets, a
    field value made of the alias, a blank and any annotation is looked
    up under that alias: listed devices with such an alias are found
    whatever the annotation. *)
Theorem device_key_of_plain_alias (a note : string) (sp : ascii) :
  a <> EmptyString ->
  all_chars (fun c => negb (PyStr.isspace c) && negb (is_open c)) a = true ->
  PyStr.isspace sp = true ->
  device_key (a ++ String sp note) = Some a.
Proof.
  intros Ne A Sp.
  assert (As : all_chars (fun c => negb (PyStr.isspace c)) a = true).
  { eapply all_chars_weaken; [|exact A]. intros c H.
    apply andb_true_iff in H. tauto. }
  assert (Ao : all_chars (fun c => negb (is_open c)) a = true).
  { eapply all_chars_weaken; [|exact A]. intros c H.
    apply andb_true_iff in H. tauto. }
  unfold device_key, first_token.
  rewrite (span_app_stop _ a sp note As); [|now rewrite Sp].
  destruct a as [|x a]; [congruence|]. cbn [PyStr.is_empty].
  now rewrite (sub_brackets_plain _ Ao), (strip_plain _ As).
Qed.

Lemma device_key_of_plain_alias_witness :
  device_key ("pixel_7" ++ String " " "(Google)") = Some "pixel_7".
Proof.
  apply (device_key_of_plain_alias "pixel_7" "(Google)" " ").
  - discriminate.
  - reflexivity.
  - reflexivity.
Defined.
